(** * Amygdala lateralization pipeline: dataset validation, schema
      normalisation and atlas mask construction

    A shallow embedding of the data-integrity core of the pipeline:

    - [scripts/run_and_qa.py]: [run], [qa_table], [validate_roi_csv],
      [_load_atlas_image], [fix_overlay_mask_and_render], [main];
    - [scripts/02_compute_asymmetry_vs_anxiety.py]: the asymmetry
      derivation and the anxiety-table column normalisation;
    - [scripts/03_generate_figures.py]: the loading of the ROI table and
      the cached amygdala mask builder of figure 4.

    Python text is modelled by [string] (ASCII: a byte above 127 is neither
    white space nor cased), float64 by the IEEE-754 binary64 instance of
    [spec_float], the file system and the interpreter's heap by [gmap]s, and
    the scripts' effects (printing, [sys.exit], exceptions, file writes) by
    a state-and-outcome monad. *)

From Stdlib Require Import ZArith Ascii String Floats.SpecFloat.
From stdpp Require Import gmap strings list fin_maps.

Local Open Scope Z_scope.
Local Open Scope string_scope.

(** ** Python strings *)

Module PyStr.

(** [str.isspace] on ASCII: TAB, LF, VT, FF, CR, FS, GS, RS, US, SPACE. *)
Definition isspace (c : ascii) : bool :=
  let n := nat_of_ascii c in
  ((9 <=? n) && (n <=? 13) || (28 <=? n) && (n <=? 32))%nat.

Definition lower_char (c : ascii) : ascii :=
  let n := nat_of_ascii c in
  if ((65 <=? n) && (n <=? 90))%nat then ascii_of_nat (n + 32) else c.

(** [s.lower()] *)
Fixpoint lower (s : string) : string :=
  match s with
  | EmptyString => EmptyString
  | String c s' => String (lower_char c) (lower s')
  end.

(** [s.lstrip()] *)
Fixpoint lstrip (s : string) : string :=
  match s with
  | EmptyString => EmptyString
  | String c s' => if isspace c then lstrip s' else s
  end.

(** [s.rstrip()] *)
Fixpoint rstrip (s : string) : string :=
  match s with
  | EmptyString => EmptyString
  | String c s' =>
      match rstrip s' with
      | EmptyString => if isspace c then EmptyString else String c EmptyString
      | r => String c r
      end
  end.

(** [s.strip()] *)
Definition strip (s : string) : string := rstrip (lstrip s).

(** [s.startswith(t)] *)
Fixpoint startswith (t s : string) : bool :=
  match t, s with
  | EmptyString, _ => true
  | String a t', String b s' => if Ascii.eqb a b then startswith t' s' else false
  | String _ _, EmptyString => false
  end.

(** [t in s] for strings: case-sensitive substring test. *)
Fixpoint contains (t s : string) : bool :=
  startswith t s ||
  match s with
  | EmptyString => false
  | String _ s' => contains t s'
  end.

(** Truthiness of a string: [bool(s)]. *)
Definition truthy (s : string) : bool :=
  match s with EmptyString => false | _ => true end.

(** [x in xs] for a list of strings. *)
Definition mem (x : string) (xs : list string) : bool :=
  existsb (String.eqb x) xs.

End PyStr.

(** ** float64 *)

Module F64.

Definition prec : Z := 53.
Definition emax : Z := 1024.

Definition float : Type := spec_float.

Definition add : float -> float -> float := SFadd prec emax.
Definition sub : float -> float -> float := SFsub prec emax.
Definition div : float -> float -> float := SFdiv prec emax.
Definition ltb : float -> float -> bool := SFltb.

Definition nan : float := S754_nan.

(** [float(n)] for a Python integer: round to nearest even. *)
Definition of_Z (n : Z) : float := binary_normalize prec emax n 0 false.

(** The literal [0.02]: the binary64 number nearest to 1/50. *)
Definition lit_0_02 : float := S754_finite false 5764607523034235 (-58).

Definition is_nan (x : float) : bool :=
  match x with S754_nan => true | _ => false end.

Definition is_zero (x : float) : bool :=
  match x with S754_zero _ => true | _ => false end.

(** [math.isfinite] *)
Definition is_finite (x : float) : bool :=
  match x with S754_zero _ | S754_finite _ _ _ => true | _ => false end.

End F64.


(** ** Effects: printing, [sys.exit], exceptions and state *)

(** The argument of [sys.exit]. *)
Inductive exit_msg :=
| MissingResultsFile (path : string)      (* "Missing results file: {path}" *)
| MissingRequiredColumn (col : string).   (* "Missing required column: {col}" *)

(** Exceptions of the interpreter and of the libraries. *)
Inductive exn :=
| TypeError
| ParserError
| FileNotFoundError
| ZeroDivisionError
| KeyError
| ImageFileError
| URLError
| ValueError (msg : string).

(** How a call ends: it returns, it leaves through [sys.exit], or an
    exception propagates out of it. *)
Inductive Outcome (A : Type) :=
| Returned (a : A)
| SystemExit (m : exit_msg)
| Raised (e : exn).
Arguments Returned {A} a.
Arguments SystemExit {A} m.
Arguments Raised {A} e.

#[export] Instance Outcome_ret : MRet Outcome := fun A a => Returned a.

#[export] Instance Outcome_bind : MBind Outcome := fun A B f o =>
  match o with
  | Returned a => f a
  | SystemExit x => SystemExit x
  | Raised e => Raised e
  end.

Definition M (S A : Type) : Type := S -> Outcome A * S.

#[export] Instance M_ret {S} : MRet (M S) := fun A a s => (Returned a, s).

#[export] Instance M_bind {S} : MBind (M S) := fun A B f m s =>
  match m s with
  | (Returned a, s') => f a s'
  | (SystemExit x, s') => (SystemExit x, s')
  | (Raised e, s') => (Raised e, s')
  end.

Definition lift_outcome {S A} (o : Outcome A) : M S A := fun s => (o, s).
Definition sys_exit {S A} (m : exit_msg) : M S A := fun s => (SystemExit m, s).
Definition raise {S A} (e : exn) : M S A := fun s => (Raised e, s).
Definition get {S} : M S S := fun s => (Returned s, s).
Definition modify {S} (f : S -> S) : M S unit := fun s => (Returned tt, f s).

(** [try: body except Exception as e: handler(e)]. [SystemExit] is not an
    [Exception] and passes through. *)
Definition try_except {S A} (body : M S A) (handler : exn -> M S A) : M S A :=
  fun s =>
    match body s with
    | (Raised e, s') => handler e s'
    | r => r
    end.

(** [if c: body] *)
Definition when {S} (c : bool) (body : M S unit) : M S unit :=
  if c then body else mret tt.

Definition is_failure {A} (o : Outcome A) : bool :=
  match o with Returned _ => false | _ => true end.

(** ** Tables *)

(** A column: float64 numbers (a missing cell is NaN) or text. The
    hemisphere columns are written by the pipeline as floats; a column of
    integers is represented by the float64 values of its cells, which the
    arithmetic below treats as pandas treats the integers as long as they
    stay below 2^52 in magnitude. *)
Inductive Series :=
| Float64 (xs : list F64.float)
| Object (xs : list string).

Definition series_len (s : Series) : nat :=
  match s with Float64 xs => length xs | Object xs => length xs end.

(** A [pandas.DataFrame]: its columns in order, each with its label. *)
Definition DataFrame : Type := list (string * Series).

(** [df.columns] *)
Definition columns (df : DataFrame) : list string := map fst df.

(** [df.shape[0]]: the rows of a frame are the cells of its columns. *)
Definition n_rows (df : DataFrame) : nat :=
  match df with
  | [] => 0%nat
  | (_, s) :: _ => series_len s
  end.

(** [col in df.columns] *)
Definition has_column (col : string) (df : DataFrame) : bool :=
  PyStr.mem col (columns df).

(** [df[col]] for a label of the frame. [read_csv] makes labels unique by
    suffixing later duplicates, so the column of a label without such a
    suffix is the first one carrying it. *)
Fixpoint getitem (df : DataFrame) (col : string) : option Series :=
  match df with
  | [] => None
  | (c, s) :: df' => if String.eqb col c then Some s else getitem df' col
  end.

(** [df[col] = s]: replaces the column when the label exists, appends it
    otherwise. *)
Fixpoint setitem (df : DataFrame) (col : string) (s : Series) : DataFrame :=
  match df with
  | [] => [(col, s)]
  | (c, s0) :: df' =>
      if String.eqb col c then (c, s) :: df' else (c, s0) :: setitem df' col s
  end.

(** The cells of a column that are present: a float64 cell that is not
    NaN, and every text cell. *)
Definition present_cells (s : Series) : list bool :=
  match s with
  | Float64 xs => map (fun x => negb (F64.is_nan x)) xs
  | Object xs => map (fun _ => true) xs
  end.

(** Element-wise arithmetic of two columns of one frame. Two float64
    columns are combined cell by cell. With a text column pandas applies the
    operator to the rows where both cells are present and leaves the other
    rows missing: on such a row [-] and [/] raise [TypeError]; when no row
    has both cells present nothing is applied, and the result is missing in
    every row. Only the values of that result matter to the program, so it
    is given as the float64 column of NaNs; columns without rows give a
    column without rows. ([+] on text is never reached below: the numerator
    [R - L] is evaluated first, over the same rows.) *)
Definition series_arith (op : F64.float -> F64.float -> F64.float)
    (a b : Series) : Outcome Series :=
  match a, b with
  | Float64 xs, Float64 ys => Returned (Float64 (zip_with op xs ys))
  | _, _ =>
      let both := zip_with andb (present_cells a) (present_cells b) in
      if existsb id both then Raised TypeError
      else match both with
           | [] => Returned (Object [])
           | _ => Returned (Float64 (map (fun _ => F64.nan) both))
           end
  end.

(** [s.mean()]: NaN cells are skipped; no cell left gives NaN; text raises.
    (The sum is taken left to right; no property below depends on the order
    of summation.) *)
Definition series_mean (s : Series) : Outcome F64.float :=
  match s with
  | Float64 xs =>
      let present := List.filter (fun x => negb (F64.is_nan x)) xs in
      Returned
        (match present with
         | [] => F64.nan
         | _ => F64.div (foldl F64.add (S754_zero false) present)
                        (F64.of_Z (Z.of_nat (length present)))
         end)
  | Object [] => Returned F64.nan
  | Object _ => Raised TypeError
  end.

(** ** Images and files *)

(** A NIfTI image: voxel values (integer labels, or a 0/1 mask) in storage
    order, with the shape, the affine transform and the header. *)
Record NiftiImage := {
  shape : list nat;
  dataobj : list Z;
  affine : list (list F64.float);
  header : string;
}.

Inductive file :=
| CsvFile (t : DataFrame)        (* a table, as [read_csv] parses it *)
| NiftiFile (img : NiftiImage)
| PngFile (overlay : NiftiImage) (* a rendered figure of an overlay *)
| OtherFile.

(** [ho.maps] is a path or an image already in memory. *)
Inductive AtlasMaps :=
| MapsPath (p : string)
| MapsImage (img : NiftiImage).

(** What [fetch_atlas_harvard_oxford] returns. *)
Record Atlas := {
  labels : list string;
  maps : AtlasMaps;
}.

(** [(R - L) / (R + L)] on two columns, evaluated as Python does: the
    numerator, then the denominator, then the quotient. *)
Definition asymmetry (r l : Series) : Outcome Series :=
  num ← series_arith F64.sub r l;
  den ← series_arith F64.add r l;
  series_arith F64.div num den.

(** [df[col]], with the [KeyError] of an absent label. *)
Definition column (df : DataFrame) (col : string) : Outcome Series :=
  match getitem df col with
  | Some s => Returned s
  | None => Raised KeyError
  end.

(** [df["Asymmetry"] = (df["Amygdala_R"] - df["Amygdala_L"])
                     / (df["Amygdala_R"] + df["Amygdala_L"])] *)
Definition assign_asymmetry (df : DataFrame) : Outcome DataFrame :=
  r ← column df "Amygdala_R";
  l ← column df "Amygdala_L";
  a ← asymmetry r l;
  mret (setitem df "Asymmetry" a).

(** The asymmetry index of one record, as the specification writes it. *)
Definition asymmetry_index (right left : F64.float) : F64.float :=
  F64.div (F64.sub right left) (F64.add right left).

(** ** The process and its surroundings *)

(** The summary [qa_table] returns. *)
Record QAInfo := mkQAInfo {
  qa_n_rows : nat;
  qa_columns : list string;
  has_STAI_T : bool;
  has_L : bool;
  has_R : bool;
  mean_L : option F64.float;
  mean_R : option F64.float;
  mean_Asym : option F64.float;
}.

(** Lines printed on standard output. *)
Inductive message :=
| MsgFewRows (n : nat)             (* "Only {n} rows — likely incomplete dataset." *)
| MsgAddedAsymmetry                (* "Added missing Asymmetry column to roi_values.csv" *)
| MsgQASummary (info : QAInfo)     (* "QA summary: ..." *)
| MsgSkipOverlay                   (* "nilearn/nibabel not available — skipping overlay auto-fix." *)
| MsgAutoFixing                    (* "Auto-fixing overlay: generating amygdala-only mask..." *)
| MsgNoAmygdalaLabels              (* "No amygdala labels found in atlas." *)
| MsgMaskCoverage (frac : F64.float) (* "Mask covers {frac*100:.2f}% of voxels — recheck atlas labeling." *)
| MsgRendering                     (* "Rendering colored overlay..." *)
| MsgSavedOverlay                  (* "Saved fig4_roi_overlay.png with visible bilateral amygdala overlay." *)
| MsgGenerating                    (* "Generating amygdala ROI overlay..." *)
| MsgDownloading                   (* "Downloading Harvard–Oxford subcortical atlas (nilearn)..." *)
| MsgSavedFig4                     (* "Saved fig4_roi_overlay.png" *)
| MsgCouldNotGenerate (e : exn).   (* "Could not generate ROI overlay: {e}" *)

(** The process and what it can reach: the file system, the paths written
    so far (one entry per write, oldest first), standard output, whether
    the neuroimaging libraries were importable, and the atlas the remote
    fetch answers with (if it answers). *)
Record World := {
  files : gmap string file;
  writes : list string;
  stdout : list message;
  HAVE_NILEARN : bool;
  harvard_oxford : option Atlas;
}.

Definition ROI_CSV : string := "results/roi_values.csv".
Definition FIG4 : string := "figures/fig4_roi_overlay.png".
Definition MASK_PATH : string := "masks/amygdala_mask.nii.gz".

(** A file is created or replaced. *)
Definition write_file (path : string) (f : file) : M World unit :=
  modify (fun w =>
    {| files := <[path := f]> (files w); writes := writes w ++ [path];
       stdout := stdout w;
       HAVE_NILEARN := HAVE_NILEARN w; harvard_oxford := harvard_oxford w |}).

Definition print (m : message) : M World unit :=
  modify (fun w =>
    {| files := files w; writes := writes w; stdout := stdout w ++ [m];
       HAVE_NILEARN := HAVE_NILEARN w; harvard_oxford := harvard_oxford w |}).

(** [path.exists()] *)
Definition path_exists (path : string) : M World bool :=
  w ← get; mret (bool_decide (is_Some (files w !! path))).

(** [pd.read_csv(path)] *)
Definition read_csv (path : string) : M World DataFrame :=
  w ← get;
  match files w !! path with
  | Some (CsvFile t) => mret t
  | Some _ => raise ParserError
  | None => raise FileNotFoundError
  end.

(** [df.to_csv(path, index=False)]: the file is replaced by the table. *)
Definition to_csv (df : DataFrame) (path : string) : M World unit :=
  write_file path (CsvFile df).

(** [nib.load(path)] *)
Definition nib_load (path : string) : M World NiftiImage :=
  w ← get;
  match files w !! path with
  | Some (NiftiFile img) => mret img
  | Some _ => raise ImageFileError
  | None => raise FileNotFoundError
  end.

(** [nib.save(img, path)] *)
Definition nib_save (img : NiftiImage) (path : string) : M World unit :=
  write_file path (NiftiFile img).

(** [datasets.fetch_atlas_harvard_oxford("sub-maxprob-thr25-1mm")] *)
Definition fetch_atlas_harvard_oxford : M World Atlas :=
  w ← get;
  match harvard_oxford w with
  | Some ho => mret ho
  | None => raise URLError
  end.

(** [enumerate(xs)] *)
Definition enumerate {A} (xs : list A) : list (nat * A) :=
  zip (seq 0 (length xs)) xs.

(** [np.isin(v, indices)] for one voxel. *)
Definition isin (v : Z) (indices : list nat) : bool :=
  existsb (fun i => Z.eqb v (Z.of_nat i)) indices.

(** [np.isin(atlas_data, indices).astype(np.int8)] *)
Definition mask_of (atlas_data : list Z) (indices : list nat) : list Z :=
  map (fun v => if isin v indices then 1 else 0) atlas_data.

(** [nib.Nifti1Image(data, img.affine, img.header)] *)
Definition Nifti1Image (data : list Z) (src : NiftiImage) : NiftiImage :=
  {| shape := shape src; dataobj := data;
     affine := affine src; header := header src |}.

(** ** [scripts/run_and_qa.py] *)

Module RunAndQA.

(** [float(df[col].mean()) if col in df.columns else None] *)
Definition mean_if_present (df : DataFrame) (col : string) : M World (option F64.float) :=
  if has_column col df then
    s ← lift_outcome (column df col);
    m ← lift_outcome (series_mean s);
    mret (Some m)
  else mret None.

Definition qa_table (df : DataFrame) : M World QAInfo :=
  m_L ← mean_if_present df "Amygdala_L";
  m_R ← mean_if_present df "Amygdala_R";
  m_Asym ← mean_if_present df "Asymmetry";
  mret {| qa_n_rows := n_rows df;
          qa_columns := columns df;
          has_STAI_T := has_column "STAI_T" df;
          has_L := has_column "Amygdala_L" df;
          has_R := has_column "Amygdala_R" df;
          mean_L := m_L; mean_R := m_R; mean_Asym := m_Asym |}.

(** [for col in cols: if col not in df.columns: sys.exit(...)] *)
Fixpoint require_columns (cols : list string) (df : DataFrame) : M World unit :=
  match cols with
  | [] => mret tt
  | col :: rest =>
      if negb (has_column col df)
      then sys_exit (MissingRequiredColumn col)
      else require_columns rest df
  end.

Definition validate_roi_csv (path : string) : M World DataFrame :=
  present ← path_exists path;
  if negb present then sys_exit (MissingResultsFile path) else
  df ← read_csv path;
  when (n_rows df <? 10)%nat (print (MsgFewRows (n_rows df)));;
  require_columns ["Amygdala_L"; "Amygdala_R"] df;;
  df ← (if negb (has_column "Asymmetry" df) then
          df ← lift_outcome (assign_asymmetry df);
          to_csv df path;;
          print MsgAddedAsymmetry;;
          mret df
        else mret df);
  info ← qa_table df;
  print (MsgQASummary info);;
  mret df.

(** [_load_atlas_image(ho)] *)
Definition _load_atlas_image (ho : Atlas) : M World NiftiImage :=
  match maps ho with
  | MapsPath p => nib_load p
  | MapsImage img => mret img
  end.

(** [[lbl.strip() for lbl in ho.labels if str(lbl).strip()]] *)
Definition clean_labels (raw : list string) : list string :=
  map PyStr.strip (List.filter (fun lbl => PyStr.truthy (PyStr.strip lbl)) raw).

(** [[i for i, name in enumerate(labels)
      if (target in name) and (exclusion not in name)]] *)
Definition matching_indices (target exclusion : string) (labels : list string) : list nat :=
  map fst
    (List.filter
       (fun '(i, name) => PyStr.contains target name && negb (PyStr.contains exclusion name))
       (enumerate labels)).

Definition amyg_indices (labels : list string) : list nat :=
  matching_indices "Amygdala" "Extended" labels.

(** [float(a) / float(b)] on Python integers. *)
Definition float_ratio (a b : Z) : M World F64.float :=
  if Z.eqb b 0 then raise ZeroDivisionError
  else mret (F64.div (F64.of_Z a) (F64.of_Z b)).

(** The rendering collaborator: the template is drawn, the mask file is
    laid over it and the figure is saved. The plotting library is taken at
    its word: given a mask file that loads, it draws. *)
Definition render_overlay : M World unit :=
  overlay ← nib_load MASK_PATH;
  write_file FIG4 (PngFile overlay).

Definition fix_overlay_mask_and_render : M World unit :=
  w ← get;
  if negb (HAVE_NILEARN w) then print MsgSkipOverlay else
  print MsgAutoFixing;;
  ho ← fetch_atlas_harvard_oxford;
  let labels := clean_labels (labels ho) in
  atlas_img ← _load_atlas_image ho;
  let atlas_data := dataobj atlas_img in
  let amyg_indices := amyg_indices labels in
  if bool_decide (amyg_indices = []) then print MsgNoAmygdalaLabels else
  let mask_data := mask_of atlas_data amyg_indices in
  frac ← float_ratio (foldr Z.add 0 mask_data) (Z.of_nat (length mask_data));
  when (F64.ltb F64.lit_0_02 frac) (print (MsgMaskCoverage frac));;
  let mask_img := Nifti1Image mask_data atlas_img in
  nib_save mask_img MASK_PATH;;
  print MsgRendering;;
  render_overlay;;
  print MsgSavedOverlay.

End RunAndQA.

(** ** [scripts/03_generate_figures.py]: figure 4 *)

Module GenerateFigures.

(** [nibabel.load(ho.maps)]: only a path can be loaded. *)
Definition load (m : AtlasMaps) : M World NiftiImage :=
  match m with
  | MapsPath p => nib_load p
  | MapsImage _ => raise TypeError
  end.

(** [[i for i, name in enumerate(labels) if "Amygdala" in name]] *)
Definition amyg_indices (labels : list string) : list nat :=
  map fst
    (List.filter (fun '(i, name) => PyStr.contains "Amygdala" name)
       (enumerate labels)).

(** [plotting.plot_roi(str(MASK_PATH), ...)] and [display.savefig]. The
    plotting library is taken at its word: given a mask file that loads, it
    draws. *)
Definition plot_roi_and_save : M World unit :=
  overlay ← nib_load MASK_PATH;
  write_file FIG4 (PngFile overlay).

(** The [try] block of figure 4 with its handler. *)
Definition figure4 : M World unit :=
  try_except
    (print MsgGenerating;;
     cached ← path_exists MASK_PATH;
     (if negb cached then
        print MsgDownloading;;
        ho ← fetch_atlas_harvard_oxford;
        let labels := labels ho in
        atlas_img ← load (maps ho);
        let atlas_data := dataobj atlas_img in
        let amyg_indices := amyg_indices labels in
        (if bool_decide (amyg_indices = [])
         then raise (ValueError "No amygdala labels found in atlas!")
         else mret tt);;
        let mask_data := mask_of atlas_data amyg_indices in
        let mask_img := Nifti1Image mask_data atlas_img in
        nib_save mask_img MASK_PATH
      else mret tt);;
     plot_roi_and_save;;
     print MsgSavedFig4)
    (fun e => print (MsgCouldNotGenerate e)).

End GenerateFigures.

(** ** [scripts/02_compute_asymmetry_vs_anxiety.py]: the anxiety table *)

Module ComputeAsymmetry.

(** The interpreter state the normalisation works on: the frames on the
    heap, by identity, and the frame the variable [anx_df] is bound to. *)
Record Interp := {
  heap : gmap nat DataFrame;
  anx_df : nat;
}.

Definition deref (r : nat) : M Interp DataFrame :=
  st ← get;
  match heap st !! r with
  | Some df => mret df
  | None => raise KeyError
  end.

(** The value of the variable [anx_df]: a reference. *)
Definition var_anx_df : M Interp nat :=
  st ← get; mret (anx_df st).

(** [anx_df = r] *)
Definition bind_anx_df (r : nat) : M Interp unit :=
  modify (fun st => {| heap := heap st; anx_df := r |}).

(** Mutation of the frame with identity [r]. *)
Definition store (r : nat) (df : DataFrame) : M Interp unit :=
  modify (fun st => {| heap := <[r := df]> (heap st); anx_df := anx_df st |}).

(** A new frame on the heap. *)
Definition alloc (df : DataFrame) : M Interp nat :=
  st ← get;
  let r := fresh (dom (heap st)) in
  store r df;;
  mret r.

(** The labels of a frame replaced, in order. *)
Definition with_columns (df : DataFrame) (names : list string) : DataFrame :=
  zip_with (fun name '(_, s) => (name, s)) names df.

(** A [columns=] mapping applied to one label. *)
Fixpoint apply_mapping (mapping : list (string * string)) (label : string) : string :=
  match mapping with
  | [] => label
  | (old, new) :: rest =>
      if String.eqb label old then new else apply_mapping rest label
  end.

Definition renamed (mapping : list (string * string)) (df : DataFrame) : DataFrame :=
  map (fun '(c, s) => (apply_mapping mapping c, s)) df.

(** [r.columns = names]: the frame [r] is changed in place. *)
Definition set_columns (r : nat) (names : list string) : M Interp unit :=
  df ← deref r;
  store r (with_columns df names).

(** [r.rename(columns=mapping)]: a new frame; [r] is left as it is. *)
Definition rename (r : nat) (mapping : list (string * string)) : M Interp nat :=
  df ← deref r;
  alloc (renamed mapping df).

(** [r.rename(columns=mapping, inplace=True)] *)
Definition rename_inplace (r : nat) (mapping : list (string * string)) : M Interp unit :=
  df ← deref r;
  store r (renamed mapping df).

(** [for candidate in candidates:
       if candidate in anx_df.columns:
           anx_df = anx_df.rename(columns={candidate: canonical}); break] *)
Fixpoint rename_first_candidate (candidates : list string) (canonical : string) : M Interp unit :=
  match candidates with
  | [] => mret tt
  | candidate :: rest =>
      r ← var_anx_df;
      df ← deref r;
      if PyStr.mem candidate (columns df) then
        r' ← rename r [(candidate, canonical)];
        bind_anx_df r'
      else rename_first_candidate rest canonical
  end.

(** [if canonical not in anx_df.columns: for candidate in ...] *)
Definition resolve (canonical : string) (candidates : list string) : M Interp unit :=
  r ← var_anx_df;
  df ← deref r;
  if negb (PyStr.mem canonical (columns df))
  then rename_first_candidate candidates canonical
  else mret tt.

(** Lines 50 to 66: "Normalize anxiety column names". *)
Definition normalize_anxiety_columns : M Interp unit :=
  r ← var_anx_df;
  df ← deref r;
  set_columns r (map (fun c => PyStr.lower (PyStr.strip c)) (columns df));;
  resolve "subject" ["sub"; "participant"; "id"; "participant_id"];;
  resolve "stai_t" ["trait_anxiety"; "anxiety"; "score"];;
  r ← var_anx_df;
  rename_inplace r [("subject", "Subject"); ("stai_t", "STAI_T")].

End ComputeAsymmetry.

From Stdlib Require Import Sorting.Sorted.

(** ** The terminal, and exits of the controller *)

(** Lines on the terminal: the lines of the stages above, and the lines the
    scripts print besides. *)
Inductive line :=
| Said (m : message)
| LineRun (cmd : string)              (* "→ {cmd}" *)
| LineLoaded (n : nat) (path : string) (* "Loaded {n} participants from {path}" *)
| LineDone                            (* "DONE — All outputs successfully generated in: {FIG_DIR}" *)
| LineFig1                            (* "   • fig1_hemisphere_box.png" *)
| LineFig2 (drawn : bool)             (* "   • fig2_asymmetry_scatter.png" or "   • (no STAI_T; fig2 skipped)" *)
| LineFig3                            (* "   • fig3_timecourse.png" *)
| LineFig4.                           (* "   • fig4_roi_overlay.png (amygdala-only, colored)" *)

(** Why a script left through [sys.exit]. *)
Inductive exit_reason :=
| FailedCommand (cmd : string)        (* "Failed: {cmd}" *)
| StageExit (m : exit_msg).

(** How a script ends. *)
Inductive Ending (A : Type) :=
| Finished (a : A)
| Exited (r : exit_reason)
| Uncaught (e : exn).
Arguments Finished {A} a.
Arguments Exited {A} r.
Arguments Uncaught {A} e.

(** A script at work: the world it acts on and the terminal so far. *)
Record Session := {
  world : World;
  console : list line;
}.

Definition Script (A : Type) : Type := Session -> Ending A * Session.

#[export] Instance Script_ret : MRet Script := fun A a s => (Finished a, s).

#[export] Instance Script_bind : MBind Script := fun A B f m s =>
  match m s with
  | (Finished a, s') => f a s'
  | (Exited r, s') => (Exited r, s')
  | (Uncaught e, s') => (Uncaught e, s')
  end.

(** [print(...)] of a script. *)
Definition say (l : line) : Script unit :=
  fun s => (Finished tt, {| world := world s; console := console s ++ [l] |}).

(** The session after the world moved on: what was printed meanwhile
    appears on the terminal. *)
Definition moved_to (w' : World) (s : Session) : Session :=
  {| world := w';
     console := console s ++ (Said <$> drop (length (stdout (world s))) (stdout w')) |}.

(** A call of one of the functions above from a script. *)
Definition stage {A} (m : M World A) : Script A :=
  fun s =>
    let '(o, w') := m (world s) in
    (match o with
     | Returned a => Finished a
     | SystemExit x => Exited (StageExit x)
     | Raised e => Uncaught e
     end,
     moved_to w' s).

(** What a shell command does: its return code and its effect. The commands
    the controller starts are whole scripts; they are taken as given. *)
Definition Shell : Type := string -> World -> Z * World.

(** ** [scripts/run_and_qa.py]: the controller *)

Module Controller.

(** [subprocess.run(cmd, cwd=cwd, shell=True).returncode] *)
Definition subprocess_run (sh : Shell) (cmd : string) : Script Z :=
  fun s =>
    let '(returncode, w') := sh cmd (world s) in
    (Finished returncode, moved_to w' s).

(** [sys.exit(msg)] of the controller. *)
Definition exit {A} (r : exit_reason) : Script A := fun s => (Exited r, s).

(** [run(cmd)]: "Run a shell command and stop if it fails." *)
Definition run (sh : Shell) (cmd : string) : Script unit :=
  say (LineRun cmd);;
  returncode ← subprocess_run sh cmd;
  if negb (Z.eqb returncode 0)
  then exit (FailedCommand cmd)
  else mret tt.

Definition main (sh : Shell) : Script unit :=
  run sh "python3 01_extract_amygdala_activation.py";;
  run sh "python3 02_compute_asymmetry_vs_anxiety.py";;
  run sh "python3 03_generate_figures.py";;
  df ← stage (RunAndQA.validate_roi_csv ROI_CSV);
  stage RunAndQA.fix_overlay_mask_and_render;;
  say LineDone;;
  say LineFig1;;
  say (LineFig2 (has_column "STAI_T" df));;
  say LineFig3;;
  say LineFig4.

End Controller.

(** ** [scripts/03_generate_figures.py]: the ROI table *)

Module FiguresData.

(** Lines 31 to 37: the table is read and, when it lacks the asymmetry
    column, the column is derived in memory. *)
Definition load_roi : Script DataFrame :=
  df ← stage (read_csv ROI_CSV);
  say (LineLoaded (n_rows df) ROI_CSV);;
  if negb (has_column "Asymmetry" df)
  then stage (lift_outcome (assign_asymmetry df))
  else mret df.

End FiguresData.

(** * Vocabulary of the properties *)

(** ** Text *)

(** [t] occurs in [s]: some text before it, some text after it. *)
Definition occurs_in (t s : string) : Prop :=
  exists pre post : string, s = pre +:+ t +:+ post.

(** The first, respectively the last, character of a text is no white
    space. *)
Definition starts_solid (t : string) : bool :=
  match t with
  | EmptyString => false
  | String a _ => negb (PyStr.isspace a)
  end.

Fixpoint ends_solid (t : string) : bool :=
  match t with
  | EmptyString => false
  | String a EmptyString => negb (PyStr.isspace a)
  | String _ t' => ends_solid t'
  end.

(** ** Worlds *)

(** The world after more lines were printed. *)
Definition printed (ms : list message) (w : World) : World :=
  {| files := files w; writes := writes w; stdout := stdout w ++ ms;
     HAVE_NILEARN := HAVE_NILEARN w; harvard_oxford := harvard_oxford w |}.

(** The world after a file was written. *)
Definition written (path : string) (f : file) (w : World) : World :=
  {| files := <[path := f]> (files w); writes := writes w ++ [path];
     stdout := stdout w;
     HAVE_NILEARN := HAVE_NILEARN w; harvard_oxford := harvard_oxford w |}.

(** A computation that only reads: one outcome, whatever the state, and the
    state left as it was. *)
Definition reads_only {S A} (m : M S A) : Prop :=
  exists o : Outcome A, forall s : S, m s = (o, s).

(** ** The validator *)

(** The world after the row-count check of the validator. *)
Definition row_count_checked (t : DataFrame) (w : World) : World :=
  if (n_rows t <? 10)%nat then printed [MsgFewRows (n_rows t)] w else w.

(** The last step of the validator: the summary is computed and printed,
    and the table is returned. *)
Definition report (df : DataFrame) : M World DataFrame :=
  info ← RunAndQA.qa_table df;
  print (MsgQASummary info);;
  mret df.

(** The float64 cell of a column at a row, when the column is numeric. *)
Definition cell (df : DataFrame) (col : string) (row : nat) : option F64.float :=
  match getitem df col with
  | Some (Float64 xs) => xs !! row
  | _ => None
  end.

(** ** The mask builder *)

(** The label volume of an atlas, when it is at hand: in memory, or in a
    NIfTI file at the path the atlas names. *)
Definition atlas_image (w : World) (ho : Atlas) : option NiftiImage :=
  match maps ho with
  | MapsImage img => Some img
  | MapsPath p =>
      match files w !! p with
      | Some (NiftiFile img) => Some img
      | _ => None
      end
  end.

(** The voxels of a mask that are set to 1. *)
Definition ones (mask_data : list Z) : nat :=
  length (List.filter (Z.eqb 1) mask_data).

(** The fraction of a mask's voxels that are set to 1, as a float64
    quotient, and the test against the 2% threshold. *)
Definition coverage (mask_data : list Z) : F64.float :=
  F64.div (F64.of_Z (Z.of_nat (ones mask_data)))
          (F64.of_Z (Z.of_nat (length mask_data))).

Definition oversized (mask_data : list Z) : bool :=
  F64.ltb F64.lit_0_02 (coverage mask_data).

(** The mask [run_and_qa.py] builds from an atlas and its label volume. *)
Definition amygdala_mask (ho : Atlas) (atlas_img : NiftiImage) : NiftiImage :=
  Nifti1Image
    (mask_of (dataobj atlas_img)
       (RunAndQA.amyg_indices (RunAndQA.clean_labels (labels ho))))
    atlas_img.

(** ** The column normalisation *)

(** A column label as the normalisation compares it: stripped and
    lower-cased. *)
Definition normalized (label : string) : string :=
  PyStr.lower (PyStr.strip label).

Definition subject_candidates : list string :=
  ["sub"; "participant"; "id"; "participant_id"].

Definition trait_candidates : list string :=
  ["trait_anxiety"; "anxiety"; "score"].


(** The candidate to rename: none when the canonical name is among the
    names, else the first candidate, in the order given, that is. *)
Definition first_match (canonical : string) (candidates names : list string) : option string :=
  if PyStr.mem canonical names then None
  else List.find (fun c => PyStr.mem c names) candidates.

(** The renaming one resolution step applies to a label. *)
Definition step_name (canonical : string) (candidates names : list string)
    (label : string) : string :=
  match first_match canonical candidates names with
  | Some c => ComputeAsymmetry.apply_mapping [(c, canonical)] label
  | None => label
  end.

(** The last renaming: the canonical names are capitalised. *)
Definition capitalized (label : string) : string :=
  ComputeAsymmetry.apply_mapping [("subject", "Subject"); ("stai_t", "STAI_T")] label.

(** A frame with its labels mapped, its columns otherwise untouched. *)
Definition relabel (f : string -> string) (df : DataFrame) : DataFrame :=
  map (fun '(c, s) => (f c, s)) df.

(** One resolution step on a frame. *)
Definition resolved (canonical : string) (candidates : list string) (df : DataFrame) : DataFrame :=
  match first_match canonical candidates (columns df) with
  | Some c => ComputeAsymmetry.renamed [(c, canonical)] df
  | None => df
  end.

(** The frame the normalisation ends with, as a function of the frame it
    starts from. *)
Definition normalized_table (df : DataFrame) : DataFrame :=
  ComputeAsymmetry.renamed [("subject", "Subject"); ("stai_t", "STAI_T")]
    (resolved "stai_t" trait_candidates
       (resolved "subject" subject_candidates (relabel normalized df))).

(** The interpreter after a frame was allocated and bound to [anx_df]. *)
Definition rebound (df : DataFrame) (st : ComputeAsymmetry.Interp) : ComputeAsymmetry.Interp :=
  {| ComputeAsymmetry.heap :=
       <[fresh (dom (ComputeAsymmetry.heap st)) := df]> (ComputeAsymmetry.heap st);
     ComputeAsymmetry.anx_df := fresh (dom (ComputeAsymmetry.heap st)) |}.

(** ** Sample inputs *)

(** Three subjects, the second with both hemispheres at zero, the third
    with opposite hemispheres. *)
Definition roi_without_asymmetry : DataFrame :=
  [("Subject", Object ["sub-0006"; "sub-0189"; "sub-0924"]);
   ("Amygdala_L", Float64 [F64.of_Z 1; F64.of_Z 0; F64.of_Z 3]);
   ("Amygdala_R", Float64 [F64.of_Z 3; F64.of_Z 0; F64.of_Z (-3)])].

Definition roi_missing_right : DataFrame :=
  [("Subject", Object ["sub-0006"; "sub-0189"; "sub-0924"]);
   ("Amygdala_L", Float64 [F64.of_Z 1; F64.of_Z 0; F64.of_Z 3])].

(** Twelve subjects with hemisphere values 1 and 3. *)
Definition roi_twelve_rows : DataFrame :=
  [("Subject", Object (replicate 12 "sub"));
   ("Amygdala_L", Float64 (replicate 12 (F64.of_Z 1)));
   ("Amygdala_R", Float64 (replicate 12 (F64.of_Z 3)))].

(** A world whose only file is the ROI table. *)
Definition roi_world (t : DataFrame) : World :=
  {| files := {[ ROI_CSV := CsvFile t ]}; writes := []; stdout := [];
     HAVE_NILEARN := false; harvard_oxford := None |}.

(** A small label volume and worlds in which the atlas fetch answers with a
    given vocabulary over it. *)
Definition sample_volume : NiftiImage :=
  {| shape := [2; 2; 1]%nat; dataobj := [0; 1; 2; 3];
     affine := []; header := "n+1" |}.

Definition sample_atlas_path : string :=
  "nilearn_data/fsl/HarvardOxford-sub-maxprob-thr25-1mm.nii.gz".

Definition sample_world (vocabulary : list string) : World :=
  {| files := {[ sample_atlas_path := NiftiFile sample_volume ]};
     writes := []; stdout := [];
     HAVE_NILEARN := true;
     harvard_oxford :=
       Some {| labels := vocabulary; maps := MapsPath sample_atlas_path |} |}.

Definition sample_vocabulary : list string :=
  ["Left Amygdala"; "Right Amygdala"; "Left Amygdala Extended"; "Background"].

(** A label volume of fifty voxels, one of them labelled 0. *)
Definition fifty_voxels : NiftiImage :=
  {| shape := [5; 5; 2]%nat; dataobj := 0 :: replicate 49 3;
     affine := []; header := "n+1" |}.

(** An anxiety table as it may be loaded, and the interpreter holding it. *)
Definition anxiety_table : DataFrame :=
  [(" Participant_ID ", Object ["sub-0006"; "sub-0189"]);
   ("Age", Float64 [F64.of_Z 23; F64.of_Z 31]);
   ("Trait_Anxiety", Float64 [F64.of_Z 52; F64.of_Z 61])].

Definition loaded (df : DataFrame) : ComputeAsymmetry.Interp :=
  {| ComputeAsymmetry.heap := {[ 0%nat := df ]}; ComputeAsymmetry.anx_df := 0%nat |}.

(** ** More vocabulary *)

(** A column the summary can average: absent, numeric, or without rows. *)
Definition averageable (df : DataFrame) (col : string) : bool :=
  match getitem df col with
  | Some (Object (_ :: _)) => false
  | _ => true
  end.

(** The summary can be computed: each of the three columns it averages is
    averageable. *)
Definition summarizable (df : DataFrame) : bool :=
  averageable df "Amygdala_L" && averageable df "Amygdala_R"
  && averageable df "Asymmetry".

(** A table with the three columns and no row. *)
Definition roi_no_rows : DataFrame :=
  [("Subject", Object []); ("Amygdala_L", Float64 []);
   ("Amygdala_R", Float64 []); ("Asymmetry", Float64 [])].

(** A table whose right-hemisphere column is text. *)
Definition roi_text_right : DataFrame :=
  [("Subject", Object ["sub-0006"]);
   ("Amygdala_L", Float64 [F64.of_Z 1]);
   ("Amygdala_R", Object ["left"])].

(** The same, the left-hemisphere value missing. *)
Definition roi_text_facing_missing : DataFrame :=
  [("Subject", Object ["sub-0006"]);
   ("Amygdala_L", Float64 [F64.nan]);
   ("Amygdala_R", Object ["left"])].

(** A label volume without voxels, and a world whose fetch answers with a
    given atlas and that has no file yet. *)
Definition empty_volume : NiftiImage :=
  {| shape := [0; 0; 0]%nat; dataobj := []; affine := []; header := "n+1" |}.

Definition world_with_atlas (ho : Atlas) : World :=
  {| files := ∅; writes := []; stdout := [];
     HAVE_NILEARN := true; harvard_oxford := Some ho |}.

(** The mask figure 4 of [03_generate_figures.py] builds from an atlas and
    its label volume. *)
Definition figure4_mask (ho : Atlas) (atlas_img : NiftiImage) : NiftiImage :=
  Nifti1Image
    (mask_of (dataobj atlas_img) (GenerateFigures.amyg_indices (labels ho)))
    atlas_img.

(** The label the normalisation ends with for a column whose stripped and
    lower-cased label is [n], in a table whose labels, stripped and
    lower-cased, are [names]. *)
Definition final_name (names : list string) (n : string) : string :=
  capitalized
    (step_name "stai_t" trait_candidates names
       (step_name "subject" subject_candidates names n)).

(** A table whose first subject has no left-hemisphere value. *)
Definition roi_missing_value : DataFrame :=
  [("Subject", Object ["sub-0006"; "sub-0189"]);
   ("Amygdala_L", Float64 [F64.nan; F64.of_Z 1]);
   ("Amygdala_R", Float64 [F64.of_Z 3; F64.of_Z 3])].

(** The three scripts the controller starts, in order. *)
Definition script_01 : string := "python3 01_extract_amygdala_activation.py".
Definition script_02 : string := "python3 02_compute_asymmetry_vs_anxiety.py".
Definition script_03 : string := "python3 03_generate_figures.py".

(** A shell in which one command fails with return code 2 and every other
    command succeeds, none of them touching the world. *)
Definition shell_failing_at (bad : string) : Shell :=
  fun cmd w => (if String.eqb cmd bad then 2 else 0, w).

(** The closing lines of the controller. *)
Definition closing_lines (fig2 : bool) : list line :=
  [LineDone; LineFig1; LineFig2 fig2; LineFig3; LineFig4].

(** A shell in which every command succeeds without touching the world. *)
Definition shell_all_ok : Shell := fun _ w => (0, w).

(** Lines of work in progress: what a stage printed, or the announcement of
    a command. None of the closing lines is one. *)
Definition progress_line (l : line) : bool :=
  match l with
  | Said _ | LineRun _ => true
  | _ => false
  end.

(** * Properties *)

(** ** Substrings *)

Section Substrings.

Lemma startswith_spec (t s : string) :
  PyStr.startswith t s = true <-> exists post, s = t +:+ post.
Proof.
  revert s. induction t as [|a t IH]; intros s; simpl.
  - split; [intros _; by exists s | done].
  - destruct s as [|b s].
    + split; [done | intros [post H]; discriminate].
    + destruct (Ascii.eqb_spec a b) as [->|Hne].
      * rewrite IH. split; intros [post H]; exists post; simpl in *;
          [by rewrite H | injection H as H'; exact H'].
      * split; [done | intros [post H]; injection H as H1 H2; done].
Qed.

Lemma contains_spec (t s : string) :
  PyStr.contains t s = true <-> occurs_in t s.
Proof.
  induction s as [|c s IH]; simpl.
  - rewrite orb_false_r, startswith_spec. split.
    + intros [post H]. by exists "", post.
    + intros ([|? ?] & post & H); simpl in H; [by exists post | discriminate].
  - rewrite orb_true_iff, startswith_spec, IH. split.
    + intros [[post H] | (pre & post & H)].
      * by exists "", post.
      * exists (String c pre), post. simpl. by rewrite H.
    + intros ([|c' pre] & post & H); simpl in H.
      * left. by exists post.
      * right. exists pre, post. injection H as _ H'. exact H'.
Qed.

Lemma contains_false_spec (t s : string) :
  PyStr.contains t s = false <-> ~ occurs_in t s.
Proof.
  rewrite <- contains_spec. destruct (PyStr.contains t s); split; congruence.
Qed.

Lemma contains_lstrip (t s : string) :
  starts_solid t = true ->
  PyStr.contains t (PyStr.lstrip s) = PyStr.contains t s.
Proof.
  intros Ht. destruct t as [|a t]; [done|]. simpl in Ht.
  induction s as [|c s IH]; [done|].
  cbn [PyStr.lstrip]. destruct (PyStr.isspace c) eqn:Hc; [|done].
  rewrite IH. cbn [PyStr.contains PyStr.startswith].
  destruct (Ascii.eqb_spec a c) as [->|_]; [|done].
  by rewrite Hc in Ht.
Qed.

Lemma startswith_rstrip (t s : string) :
  ends_solid t = true ->
  PyStr.startswith t (PyStr.rstrip s) = PyStr.startswith t s.
Proof.
  revert t. induction s as [|c s IH]; intros t Ht; [done|].
  destruct t as [|a t]; [done|].
  cbn [PyStr.rstrip].
  destruct t as [|a' t].
  - simpl in Ht.
    destruct (PyStr.rstrip s); [destruct (PyStr.isspace c) eqn:Hc|]; simpl;
      destruct (Ascii.eqb_spec a c) as [->|]; try done.
    by rewrite Hc in Ht.
  - assert (ends_solid (String a' t) = true) as Ht' by exact Ht.
    specialize (IH _ Ht').
    destruct (PyStr.rstrip s) as [|r0 r] eqn:Hr.
    + cbn [PyStr.startswith] in *. rewrite <- IH.
      destruct (PyStr.isspace c); simpl; by destruct (Ascii.eqb a c).
    + cbn [PyStr.startswith] in *. by rewrite IH.
Qed.

Lemma contains_rstrip (t s : string) :
  ends_solid t = true ->
  PyStr.contains t (PyStr.rstrip s) = PyStr.contains t s.
Proof.
  intros Ht. induction s as [|c s IH]; [done|].
  cbn [PyStr.contains]. rewrite <- IH, <- (startswith_rstrip t (String c s)) by done.
  cbn [PyStr.rstrip].
  destruct (PyStr.rstrip s) as [|r0 r] eqn:Hr.
  - destruct t as [|a t]; [done|].
    destruct (PyStr.isspace c); simpl; by rewrite ?orb_false_r.
  - done.
Qed.

(** Stripping white space off a name never changes whether a text with
    solid ends occurs in it. *)
Lemma contains_strip (t s : string) :
  starts_solid t = true -> ends_solid t = true ->
  PyStr.contains t (PyStr.strip s) = PyStr.contains t s.
Proof.
  intros H1 H2. unfold PyStr.strip.
  by rewrite contains_rstrip, contains_lstrip.
Qed.

End Substrings.

(** ** Label selection *)

Section Selection.

Lemma elem_of_zip_seq {A} (l : list A) (k i : nat) (x : A) :
  (i, x) ∈ zip (seq k (length l)) l <-> (k <= i)%nat /\ l !! (i - k)%nat = Some x.
Proof.
  revert k. induction l as [|y l IH]; intros k; simpl.
  - rewrite elem_of_nil. split; [done | by intros [_ ?]].
  - rewrite elem_of_cons, IH. split.
    + intros [[= -> ->] | [Hk Hl]].
      * split; [lia|]. by replace (k - k)%nat with 0%nat by lia.
      * split; [lia|]. by replace (i - k)%nat with (S (i - S k)) by lia.
    + intros [Hk Hl]. destruct (decide (i = k)) as [->|Hne].
      * left. replace (k - k)%nat with 0%nat in Hl by lia.
        simpl in Hl. by injection Hl as ->.
      * right. split; [lia|].
        by replace (i - k)%nat with (S (i - S k)) in Hl by lia.
Qed.

Lemma elem_of_enumerate {A} (l : list A) (i : nat) (x : A) :
  (i, x) ∈ enumerate l <-> l !! i = Some x.
Proof.
  unfold enumerate. rewrite elem_of_zip_seq.
  replace (i - 0)%nat with i by lia. intuition lia.
Qed.

(** The positions a comprehension over [enumerate] keeps. *)
Lemma elem_of_kept_positions {A} (p : A -> bool) (l : list A) (i : nat) :
  i ∈ map fst (List.filter (fun '(_, x) => p x) (enumerate l))
  <-> exists x, l !! i = Some x /\ p x = true.
Proof.
  rewrite list_elem_of_fmap. split.
  - intros ([j x] & -> & Hin). apply list_elem_of_In, filter_In in Hin.
    destruct Hin as [Hin Hp]. apply list_elem_of_In, elem_of_enumerate in Hin. eauto.
  - intros (x & Hl & Hp). exists (i, x). split; [done|].
    apply list_elem_of_In, filter_In. split; [|done].
    by apply list_elem_of_In, elem_of_enumerate.
Qed.

Lemma elem_of_matching_indices (target exclusion : string) (labels : list string) (i : nat) :
  i ∈ RunAndQA.matching_indices target exclusion labels
  <-> exists name, labels !! i = Some name
        /\ occurs_in target name /\ ~ occurs_in exclusion name.
Proof.
  unfold RunAndQA.matching_indices.
  rewrite (elem_of_kept_positions
             (fun name => PyStr.contains target name && negb (PyStr.contains exclusion name))).
  split; intros (name & Hl & H); exists name; (split; [done|]).
  - apply andb_true_iff in H as [H1 H2]. apply negb_true_iff in H2.
    by rewrite <- contains_spec, <- contains_false_spec.
  - destruct H as [H1 H2]. apply andb_true_iff.
    by rewrite negb_true_iff, contains_spec, contains_false_spec.
Qed.

Lemma isin_spec (v : Z) (indices : list nat) :
  isin v indices = true <-> exists i, i ∈ indices /\ v = Z.of_nat i.
Proof.
  unfold isin. rewrite existsb_exists. split.
  - intros (i & Hin & Heq). exists i. split; [by apply list_elem_of_In | lia].
  - intros (i & Hin & ->). exists i. split; [by apply list_elem_of_In | lia].
Qed.

Lemma mask_of_lookup (atlas_data : list Z) (indices : list nat) (k : nat) :
  mask_of atlas_data indices !! k
  = (fun v => if isin v indices then 1 else 0) <$> atlas_data !! k.
Proof. unfold mask_of. apply list_lookup_fmap. Qed.

(** A vocabulary without blank entries is only stripped. *)
Lemma clean_labels_no_blank (raw : list string) :
  Forall (fun lbl => PyStr.strip lbl <> "") raw ->
  RunAndQA.clean_labels raw = map PyStr.strip raw.
Proof.
  unfold RunAndQA.clean_labels. intros H. f_equal.
  induction H as [|lbl raw Hl _ IH]; [done|]. simpl.
  destruct (PyStr.strip lbl) eqn:E; [done|]. simpl. by rewrite IH.
Qed.

End Selection.

(** X28. What the builder of [run_and_qa.py] computes, read on the list it
    enumerates: the selected indices are exactly the positions, in the
    vocabulary once its entries are stripped and the blank ones removed, of
    the names in which the target occurs (case-sensitively) and the
    exclusion does not; the mask has the length of the label volume and
    holds 1 at a voxel iff the voxel's label is a selected position, else
    0; for the vocabulary "Left Amygdala", "Right Amygdala",
    "Left Amygdala Extended", "Background" with "Amygdala" / "Extended"
    the selection is 0 and 1. *)
Theorem mask_builder_selects_matching_positions
    (raw : list string) (target exclusion : string) (atlas_data : list Z) :
  let labels := RunAndQA.clean_labels raw in
  let selected := RunAndQA.matching_indices target exclusion labels in
  (forall i : nat,
      i ∈ selected <->
      exists name, labels !! i = Some name
        /\ occurs_in target name /\ ~ occurs_in exclusion name)
  /\ length (mask_of atlas_data selected) = length atlas_data
  /\ (forall (k : nat) (v : Z), atlas_data !! k = Some v ->
        (mask_of atlas_data selected !! k = Some 1
           /\ exists i, i ∈ selected /\ v = Z.of_nat i)
        \/ (mask_of atlas_data selected !! k = Some 0
           /\ ~ exists i, i ∈ selected /\ v = Z.of_nat i))
  /\ RunAndQA.amyg_indices
       (RunAndQA.clean_labels
          ["Left Amygdala"; "Right Amygdala"; "Left Amygdala Extended"; "Background"])
     = [0; 1]%nat.
Proof.
  intros labels selected. repeat split.
  - apply elem_of_matching_indices.
  - apply elem_of_matching_indices.
  - unfold mask_of. by rewrite length_map.
  - intros k v Hk. rewrite mask_of_lookup, Hk. simpl.
    destruct (isin v selected) eqn:E.
    + left. split; [done|]. by apply isin_spec.
    + right. split; [done|]. rewrite <- isin_spec. congruence.
Qed.

(** The selection is not the one C5 describes: with a blank entry in front,
    the position selected is not the position of the amygdala entry in the
    atlas vocabulary. *)
Lemma selection_not_atlas_positions :
  ~ (forall (vocabulary : list string) (i : nat),
        i ∈ RunAndQA.amyg_indices (RunAndQA.clean_labels vocabulary) <->
        exists name, vocabulary !! i = Some name
          /\ occurs_in "Amygdala" name /\ ~ occurs_in "Extended" name).
Proof.
  intros H. specialize (H [""; "Left Amygdala"] 0%nat).
  destruct H as [H _].
  destruct H as (name & Hname & Hocc & _).
  - vm_compute. left.
  - injection Hname as <-. apply contains_spec in Hocc. discriminate.
Qed.

(** C5. The builder of [run_and_qa.py] at the atlas vocabulary "",
    "Left Amygdala" over the voxels 0, 1, 2, 3: it drops the blank entry
    and enumerates what is left, so it selects index 0 and the mask it
    writes marks the voxel labelled 0, not the amygdala voxel (labelled 1).
    Figure 4 of [03_generate_figures.py] enumerates the atlas labels as they
    are: at the same atlas it selects index 1 and marks the amygdala
    voxel. *)
Lemma blank_entry_misplaces_the_mask :
  let vocabulary := [""; "Left Amygdala"] in
  let w := sample_world vocabulary in
  RunAndQA.amyg_indices (RunAndQA.clean_labels vocabulary) = [0%nat]
  /\ files (RunAndQA.fix_overlay_mask_and_render w).2 !! MASK_PATH
     = Some (NiftiFile (Nifti1Image [1; 0; 0; 0] sample_volume))
  /\ GenerateFigures.amyg_indices vocabulary = [1%nat]
  /\ files (GenerateFigures.figure4 w).2 !! MASK_PATH
     = Some (NiftiFile (Nifti1Image [0; 1; 0; 0] sample_volume)).
Proof. vm_compute. done. Qed.

(** Figure 4 of [03_generate_figures.py] tests the target only: on the
    sample vocabulary it also selects the extended region. *)
Lemma figure4_selection_has_no_exclusion :
  GenerateFigures.amyg_indices sample_vocabulary = [0; 1; 2]%nat.
Proof. reflexivity. Qed.

(** ** Runs of the mask builder *)

(** One step of symbolic execution: the monad's operations are unfolded and
    the state is threaded through. *)
Ltac run_m :=
  unfold mbind, M_bind, mret, M_ret, get, modify, raise, sys_exit,
    lift_outcome, when, print, write_file; simpl.

Section MaskBuilderRuns.

(** The sum of a 0/1 mask counts its ones. *)
Lemma sum_mask_of (atlas_data : list Z) (indices : list nat) :
  foldr Z.add 0 (mask_of atlas_data indices)
  = Z.of_nat (ones (mask_of atlas_data indices)).
Proof.
  unfold ones, mask_of. induction atlas_data as [|v d IH]; [done|].
  simpl. rewrite IH. destruct (isin v indices); simpl; lia.
Qed.

Lemma load_atlas_image_run (w : World) (ho : Atlas) (img : NiftiImage) :
  atlas_image w ho = Some img ->
  forall w', files w' = files w ->
  RunAndQA._load_atlas_image ho w' = (Returned img, w').
Proof.
  unfold atlas_image, RunAndQA._load_atlas_image, nib_load. intros H w' Hw'.
  destruct (maps ho) as [p|img']; run_m.
  - rewrite Hw'. destruct (files w !! p) as [[]|]; by simplify_eq.
  - by simplify_eq.
Qed.

(** What a run of [fix_overlay_mask_and_render] does once the atlas and
    its label volume are at hand. *)
Lemma fix_overlay_run (w : World) (ho : Atlas) (img : NiftiImage) :
  HAVE_NILEARN w = true ->
  harvard_oxford w = Some ho ->
  atlas_image w ho = Some img ->
  let mask := amygdala_mask ho img in
  RunAndQA.fix_overlay_mask_and_render w =
    if bool_decide (RunAndQA.amyg_indices (RunAndQA.clean_labels (labels ho)) = [])
    then (Returned tt, printed [MsgAutoFixing; MsgNoAmygdalaLabels] w)
    else if bool_decide (dataobj img = [])
    then (Raised ZeroDivisionError, printed [MsgAutoFixing] w)
    else (Returned tt,
          printed [MsgRendering; MsgSavedOverlay]
            (written FIG4 (PngFile mask)
               (written MASK_PATH (NiftiFile mask)
                  (printed
                     (MsgAutoFixing ::
                      if oversized (dataobj mask)
                      then [MsgMaskCoverage (coverage (dataobj mask))] else [])
                     w)))).
Proof.
  intros Hn Hf Himg mask.
  unfold RunAndQA.fix_overlay_mask_and_render, fetch_atlas_harvard_oxford.
  run_m. rewrite Hn. simpl. rewrite Hf. simpl.
  rewrite (load_atlas_image_run w ho img Himg) by done.
  case_bool_decide as Hidx.
  { run_m. unfold printed. by rewrite <- app_assoc, Hf. }
  unfold RunAndQA.float_ratio.
  case_bool_decide as Hdata.
  { rewrite Hdata. simpl. unfold printed. by rewrite Hf. }
  assert (Z.eqb (Z.of_nat (length (mask_of (dataobj img)
            (RunAndQA.amyg_indices (RunAndQA.clean_labels (labels ho)))))) 0 = false) as ->.
  { apply Z.eqb_neq. unfold mask_of. rewrite length_map.
    destruct (dataobj img); [done | simpl; lia]. }
  rewrite sum_mask_of.
  run_m. unfold oversized, coverage, mask, amygdala_mask. simpl.
  destruct (F64.ltb _ _); run_m; unfold RunAndQA.render_overlay, nib_load; run_m;
    rewrite lookup_insert_eq; unfold printed, written; simpl;
    rewrite <- ?app_assoc, ?Hf; reflexivity.
Qed.

(** Figure 4 of [03_generate_figures.py] when no mask is cached and no
    label names the amygdala: the [ValueError] is caught by the handler. *)
Lemma figure4_no_labels_run (w : World) (ho : Atlas) (p : string) (img : NiftiImage) :
  files w !! MASK_PATH = None ->
  harvard_oxford w = Some ho ->
  maps ho = MapsPath p ->
  files w !! p = Some (NiftiFile img) ->
  GenerateFigures.amyg_indices (labels ho) = [] ->
  GenerateFigures.figure4 w =
    (Returned tt,
     printed [MsgGenerating; MsgDownloading;
              MsgCouldNotGenerate (ValueError "No amygdala labels found in atlas!")] w).
Proof.
  intros Hmask Hf Hmaps Hp Hidx.
  unfold GenerateFigures.figure4, try_except, path_exists, fetch_atlas_harvard_oxford.
  run_m. rewrite Hmask. simpl. rewrite Hf. simpl.
  unfold GenerateFigures.load, nib_load. rewrite Hmaps. run_m. rewrite Hp. simpl.
  rewrite Hidx. simpl. unfold printed. by rewrite <- !app_assoc, Hf.
Qed.

End MaskBuilderRuns.

(** ** The mask builder: empty selections, oversized masks, blank labels *)

(** C6. When no label passes the filter, the mask builder of
    [run_and_qa.py] prints "No amygdala labels found in atlas." and returns
    normally, and figure 4 of [03_generate_figures.py] raises a
    [ValueError] that its own handler catches and prints; in both, no file
    is written: no mask is built or persisted, and no error leaves the
    builder. *)
Theorem no_matching_labels_reported_without_mask
    (w : World) (ho : Atlas) (img : NiftiImage)
    (Hlib : HAVE_NILEARN w = true)
    (Hfetch : harvard_oxford w = Some ho)
    (Himg : atlas_image w ho = Some img) :
  (RunAndQA.amyg_indices (RunAndQA.clean_labels (labels ho)) = [] ->
   exists w',
     RunAndQA.fix_overlay_mask_and_render w = (Returned tt, w')
     /\ files w' = files w /\ writes w' = writes w
     /\ stdout w' = (stdout w ++ [MsgAutoFixing; MsgNoAmygdalaLabels])%list)
  /\ (GenerateFigures.amyg_indices (labels ho) = [] ->
      files w !! MASK_PATH = None ->
      (exists p, maps ho = MapsPath p) ->
      exists w',
        GenerateFigures.figure4 w = (Returned tt, w')
        /\ files w' = files w /\ writes w' = writes w
        /\ stdout w' =
             (stdout w ++
              [MsgGenerating; MsgDownloading;
               MsgCouldNotGenerate (ValueError "No amygdala labels found in atlas!")])%list).
Proof.
  split.
  - intros Hidx. eexists. split.
    + rewrite (fix_overlay_run w ho img Hlib Hfetch Himg).
      rewrite bool_decide_eq_true_2 by done. reflexivity.
    + done.
  - intros Hidx Hmask [p Hmaps]. eexists. split.
    + apply (figure4_no_labels_run w ho p img); try done.
      unfold atlas_image in Himg. rewrite Hmaps in Himg.
      by destruct (files w !! p) as [[]|]; simplify_eq.
    + done.
Qed.

Lemma no_matching_labels_reported_without_mask_witness :
  let w := sample_world ["Background"] in
  (exists w',
     RunAndQA.fix_overlay_mask_and_render w = (Returned tt, w')
     /\ files w' = files w /\ writes w' = writes w
     /\ stdout w' = (stdout w ++ [MsgAutoFixing; MsgNoAmygdalaLabels])%list)
  /\ (exists w',
        GenerateFigures.figure4 w = (Returned tt, w')
        /\ files w' = files w /\ writes w' = writes w
        /\ stdout w' =
             (stdout w ++
              [MsgGenerating; MsgDownloading;
               MsgCouldNotGenerate (ValueError "No amygdala labels found in atlas!")])%list).
Proof.
  destruct (no_matching_labels_reported_without_mask
              (sample_world ["Background"])
              {| labels := ["Background"]; maps := MapsPath sample_atlas_path |}
              sample_volume eq_refl eq_refl eq_refl) as [H1 H2].
  split.
  - apply H1. vm_compute. reflexivity.
  - apply H2; [vm_compute; reflexivity | vm_compute; reflexivity | by eexists].
Defined.

(** C6, as stated, fails: an empty selection is no failure of the builder;
    the call returns as any other. *)
Lemma empty_selection_is_not_an_error :
  ~ (forall (w : World) (ho : Atlas) (img : NiftiImage),
        HAVE_NILEARN w = true ->
        harvard_oxford w = Some ho ->
        atlas_image w ho = Some img ->
        RunAndQA.amyg_indices (RunAndQA.clean_labels (labels ho)) = [] ->
        is_failure (RunAndQA.fix_overlay_mask_and_render w).1 = true).
Proof.
  intros H.
  specialize (H (sample_world ["Background"])
                {| labels := ["Background"]; maps := MapsPath sample_atlas_path |}
                sample_volume eq_refl eq_refl eq_refl eq_refl).
  vm_compute in H. discriminate.
Qed.

(** C9. A mask whose fraction of 1-voxels exceeds 2% only adds a warning
    line: the run still returns, and the mask written to [MASK_PATH] is the
    mask of the atlas, the same whether the warning is printed or not; at or
    below the threshold no warning is printed. *)
Theorem oversized_mask_only_warns
    (w : World) (ho : Atlas) (img : NiftiImage)
    (Hlib : HAVE_NILEARN w = true)
    (Hfetch : harvard_oxford w = Some ho)
    (Himg : atlas_image w ho = Some img)
    (Hidx : RunAndQA.amyg_indices (RunAndQA.clean_labels (labels ho)) <> [])
    (Hdata : dataobj img <> []) :
  let mask := amygdala_mask ho img in
  let warning :=
    if oversized (dataobj mask)
    then [MsgMaskCoverage (coverage (dataobj mask))] else [] in
  exists w',
    RunAndQA.fix_overlay_mask_and_render w = (Returned tt, w')
    /\ files w' !! MASK_PATH = Some (NiftiFile mask)
    /\ files w' = <[FIG4 := PngFile mask]> (<[MASK_PATH := NiftiFile mask]> (files w))
    /\ writes w' = (writes w ++ [MASK_PATH; FIG4])%list
    /\ stdout w' =
         (stdout w ++ [MsgAutoFixing] ++ warning ++ [MsgRendering; MsgSavedOverlay])%list.
Proof.
  intros mask warning. eexists. split.
  - rewrite (fix_overlay_run w ho img Hlib Hfetch Himg).
    rewrite bool_decide_eq_false_2 by done.
    rewrite bool_decide_eq_false_2 by done. reflexivity.
  - simpl. repeat split.
    + rewrite lookup_insert_ne by done. apply lookup_insert_eq.
    + by rewrite <- app_assoc.
    + by rewrite <- !app_assoc.
Qed.

Lemma oversized_mask_only_warns_witness :
  let w := sample_world sample_vocabulary in
  let mask := Nifti1Image [1; 1; 0; 0] sample_volume in
  exists w',
    RunAndQA.fix_overlay_mask_and_render w = (Returned tt, w')
    /\ files w' !! MASK_PATH = Some (NiftiFile mask)
    /\ files w' = <[FIG4 := PngFile mask]> (<[MASK_PATH := NiftiFile mask]> (files w))
    /\ writes w' = [MASK_PATH; FIG4]
    /\ stdout w' =
         [MsgAutoFixing;
          MsgMaskCoverage (S754_finite false 4503599627370496 (-53));
          MsgRendering; MsgSavedOverlay].
Proof.
  apply (oversized_mask_only_warns
           (sample_world sample_vocabulary)
           {| labels := sample_vocabulary; maps := MapsPath sample_atlas_path |}
           sample_volume eq_refl eq_refl eq_refl);
    vm_compute; discriminate.
Defined.

(** One voxel in fifty is exactly 2%: the threshold is not exceeded and
    nothing is printed about the coverage. *)
Lemma mask_at_threshold_no_warning :
  let ho := {| labels := ["Left Amygdala"]; maps := MapsImage fifty_voxels |} in
  ones (dataobj (amygdala_mask ho fifty_voxels)) = 1%nat
  /\ coverage (dataobj (amygdala_mask ho fifty_voxels)) = F64.lit_0_02
  /\ oversized (dataobj (amygdala_mask ho fifty_voxels)) = false.
Proof. vm_compute. done. Qed.

(** C10. The builder strips every vocabulary entry and drops the entries
    that are blank once stripped; the selected indices are positions in
    what is left. Without blank entries they are the positions, in the
    atlas vocabulary, of the names in which "Amygdala" occurs and
    "Extended" does not; with a blank entry in front of an amygdala entry
    the selected index is not that entry's position, and the voxels
    carrying the entry's label stay outside the mask. *)
Theorem blank_labels_shift_selected_positions :
  (forall (raw : list string) (name : string),
      name ∈ RunAndQA.clean_labels raw <->
      exists lbl, lbl ∈ raw /\ name = PyStr.strip lbl /\ name <> "")
  /\ (forall raw : list string,
        Forall (fun lbl => PyStr.strip lbl <> "") raw ->
        forall i : nat,
          i ∈ RunAndQA.amyg_indices (RunAndQA.clean_labels raw) <->
          exists name, raw !! i = Some name
            /\ occurs_in "Amygdala" name /\ ~ occurs_in "Extended" name)
  /\ (exists (raw : list string) (blank pos : nat) (entry name : string),
        (blank < pos)%nat
        /\ raw !! blank = Some entry /\ PyStr.strip entry = ""
        /\ raw !! pos = Some name
        /\ occurs_in "Amygdala" name /\ ~ occurs_in "Extended" name
        /\ (pos ∉ RunAndQA.amyg_indices (RunAndQA.clean_labels raw))
        /\ RunAndQA.amyg_indices (RunAndQA.clean_labels raw) = [(pos - 1)%nat]
        /\ mask_of [Z.of_nat pos]
             (RunAndQA.amyg_indices (RunAndQA.clean_labels raw)) = [0]).
Proof.
  split; [|split].
  - intros raw name. unfold RunAndQA.clean_labels.
    rewrite list_elem_of_fmap. split.
    + intros (lbl & -> & Hin). apply list_elem_of_In, filter_In in Hin.
      destruct Hin as [Hin Hne]. exists lbl. split; [by apply list_elem_of_In|].
      split; [done|]. by destruct (PyStr.strip lbl).
    + intros (lbl & Hin & -> & Hne). exists lbl. split; [done|].
      apply list_elem_of_In, filter_In. split; [by apply list_elem_of_In|].
      by destruct (PyStr.strip lbl).
  - intros raw Hraw i. rewrite clean_labels_no_blank by done.
    unfold RunAndQA.amyg_indices. rewrite elem_of_matching_indices.
    rewrite list_lookup_fmap. split.
    + intros (name & Hl & H1 & H2).
      destruct (raw !! i) as [lbl|] eqn:E; [|done]. injection Hl as <-.
      exists lbl. split; [done|].
      apply contains_spec in H1. apply contains_false_spec in H2.
      rewrite contains_strip in H1, H2 by done.
      split; [by apply contains_spec | by apply contains_false_spec].
    + intros (name & Hl & H1 & H2). exists (PyStr.strip name).
      rewrite Hl. split; [done|].
      apply contains_spec in H1. apply contains_false_spec in H2.
      rewrite <- contains_spec, <- contains_false_spec.
      by rewrite !contains_strip by done.
  - exists [" "; "Left Amygdala"], 0%nat, 1%nat, " ", "Left Amygdala".
    split; [lia|]. split; [done|]. split; [done|]. split; [done|].
    rewrite <- contains_spec, <- contains_false_spec.
    split; [done|]. split; [done|].
    split; [|done]. vm_compute. by intros ?%list_elem_of_singleton.
Qed.

Lemma blank_labels_shift_selected_positions_witness :
  1%nat ∈ RunAndQA.amyg_indices (RunAndQA.clean_labels sample_vocabulary) <->
  exists name, sample_vocabulary !! 1%nat = Some name
    /\ occurs_in "Amygdala" name /\ ~ occurs_in "Extended" name.
Proof.
  apply (proj1 (proj2 blank_labels_shift_selected_positions) sample_vocabulary).
  repeat constructor; vm_compute; discriminate.
Defined.

(** ** Tables *)

Section Tables.

Lemma has_column_setitem (df : DataFrame) (col k : string) (s : Series) :
  has_column col (setitem df k s) = has_column col df || String.eqb col k.
Proof.
  unfold has_column, columns, PyStr.mem.
  induction df as [|[c s0] df IH]; simpl.
  - by rewrite orb_false_r.
  - destruct (String.eqb_spec k c) as [->|Hne]; simpl.
    + destruct (String.eqb col c); [done|]. simpl.
      clear IH. induction df as [|[c' s'] df IH]; simpl.
      * done.
      * by destruct (String.eqb col c').
    + rewrite IH. by rewrite orb_assoc.
Qed.

Lemma getitem_setitem (df : DataFrame) (k : string) (s : Series) :
  getitem (setitem df k s) k = Some s.
Proof.
  induction df as [|[c s0] df IH]; simpl.
  - by rewrite String.eqb_refl.
  - destruct (String.eqb k c) eqn:E; simpl; by rewrite E.
Qed.

Lemma getitem_setitem_ne (df : DataFrame) (col k : string) (s : Series) :
  col <> k -> getitem (setitem df k s) col = getitem df col.
Proof.
  intros Hne. induction df as [|[c s0] df IH]; simpl.
  - by apply String.eqb_neq in Hne as ->.
  - destruct (String.eqb_spec k c) as [->|Hkc]; simpl.
    + by apply String.eqb_neq in Hne as ->.
    + by rewrite IH.
Qed.

(** A label the frame lacks is appended after the columns it has. *)
Lemma setitem_absent (df : DataFrame) (k : string) (s : Series) :
  has_column k df = false -> setitem df k s = (df ++ [(k, s)])%list.
Proof.
  unfold has_column, columns, PyStr.mem.
  induction df as [|[c s0] df IH]; simpl; [done|].
  intros [Hc H]%orb_false_iff. rewrite Hc. by rewrite IH.
Qed.

Lemma zip_with_asymmetry (rs ls : list F64.float) :
  zip_with F64.div (zip_with F64.sub rs ls) (zip_with F64.add rs ls)
  = zip_with asymmetry_index rs ls.
Proof.
  revert ls. induction rs as [|r rs IH]; intros [|l ls]; simpl; [done..|].
  by rewrite IH.
Qed.

Lemma asymmetry_float64 (rs ls : list F64.float) :
  asymmetry (Float64 rs) (Float64 ls) = Returned (Float64 (zip_with asymmetry_index rs ls)).
Proof. unfold asymmetry. simpl. by rewrite zip_with_asymmetry. Qed.

(** The assignment of the asymmetry column either fails or sets exactly
    that column. *)
Lemma assign_asymmetry_returned (df df' : DataFrame) :
  assign_asymmetry df = Returned df' ->
  exists r l a,
    getitem df "Amygdala_R" = Some r /\ getitem df "Amygdala_L" = Some l
    /\ asymmetry r l = Returned a /\ df' = setitem df "Asymmetry" a.
Proof.
  unfold assign_asymmetry, column.
  destruct (getitem df "Amygdala_R") as [r|]; [|done].
  destruct (getitem df "Amygdala_L") as [l|]; [|done].
  simpl. destruct (asymmetry r l) as [a| |] eqn:E; [|done..].
  simpl. intros [= <-]. by exists r, l, a.
Qed.

(** Repairing a table without the column appends it after the columns the
    table has. *)
Lemma repair_appends_column (df df' : DataFrame) :
  has_column "Asymmetry" df = false ->
  assign_asymmetry df = Returned df' ->
  exists a, df' = (df ++ [("Asymmetry", a)])%list.
Proof.
  intros Hno (r & l & a & _ & _ & _ & ->)%assign_asymmetry_returned.
  exists a. by apply setitem_absent.
Qed.

End Tables.

(** ** Runs of the validator *)

Section ValidatorRuns.

Lemma reads_only_lift {S A} (o : Outcome A) : reads_only (S:=S) (lift_outcome o).
Proof. by exists o. Qed.

Lemma reads_only_ret {S A} (a : A) : reads_only (S:=S) (mret a).
Proof. by exists (Returned a). Qed.

Lemma reads_only_bind {S A B} (m : M S A) (f : A -> M S B) :
  reads_only m -> (forall a, reads_only (f a)) -> reads_only (m ≫= f).
Proof.
  intros [o Ho] Hf. destruct o as [a|x|e].
  - destruct (Hf a) as [o' Ho']. exists o'. intros s.
    unfold mbind, M_bind. by rewrite Ho, Ho'.
  - exists (SystemExit x). intros s. unfold mbind, M_bind. by rewrite Ho.
  - exists (Raised e). intros s. unfold mbind, M_bind. by rewrite Ho.
Qed.

Lemma mean_if_present_reads_only (df : DataFrame) (col : string) :
  reads_only (RunAndQA.mean_if_present df col).
Proof.
  unfold RunAndQA.mean_if_present. destruct (has_column col df).
  - repeat (apply reads_only_bind; [apply reads_only_lift | intros ?]).
    apply reads_only_ret.
  - apply reads_only_ret.
Qed.

(** The summary reads the table only. *)
Lemma qa_table_reads_only (df : DataFrame) : reads_only (RunAndQA.qa_table df).
Proof.
  unfold RunAndQA.qa_table.
  repeat (apply reads_only_bind; [apply mean_if_present_reads_only | intros ?]).
  apply reads_only_ret.
Qed.

Lemma qa_table_world (df : DataFrame) (w : World) :
  RunAndQA.qa_table df w = ((RunAndQA.qa_table df w).1, w).
Proof. destruct (qa_table_reads_only df) as [o Ho]. by rewrite Ho. Qed.

(** The report writes no file, and its outcome depends on the table only. *)
Lemma report_run (df : DataFrame) (w : World) :
  report df w =
    match (RunAndQA.qa_table df w).1 with
    | Returned info => (Returned df, printed [MsgQASummary info] w)
    | SystemExit m => (SystemExit m, w)
    | Raised e => (Raised e, w)
    end.
Proof.
  unfold report. unfold mbind at 1, M_bind at 1.
  rewrite qa_table_world. by destruct (RunAndQA.qa_table df w).1.
Qed.

Lemma report_files (df : DataFrame) (w : World) :
  files (report df w).2 = files w /\ writes (report df w).2 = writes w.
Proof. rewrite report_run. by destruct (RunAndQA.qa_table df w).1. Qed.

Lemma report_returned (df df' : DataFrame) (w w' : World) :
  report df w = (Returned df', w') -> df' = df.
Proof. rewrite report_run. destruct (RunAndQA.qa_table df w).1; congruence. Qed.

Lemma row_count_checked_files (t : DataFrame) (w : World) :
  files (row_count_checked t w) = files w
  /\ writes (row_count_checked t w) = writes w.
Proof. unfold row_count_checked. by destruct (n_rows t <? 10)%nat. Qed.

(** The validator on a file that parses as a table, step by step. *)
Lemma validate_roi_csv_run (path : string) (w : World) (t : DataFrame) :
  files w !! path = Some (CsvFile t) ->
  let w1 := row_count_checked t w in
  RunAndQA.validate_roi_csv path w =
    if negb (has_column "Amygdala_L" t)
    then (SystemExit (MissingRequiredColumn "Amygdala_L"), w1)
    else if negb (has_column "Amygdala_R" t)
    then (SystemExit (MissingRequiredColumn "Amygdala_R"), w1)
    else if has_column "Asymmetry" t then report t w1
    else match assign_asymmetry t with
         | Returned df =>
             report df (printed [MsgAddedAsymmetry] (written path (CsvFile df) w1))
         | SystemExit m => (SystemExit m, w1)
         | Raised e => (Raised e, w1)
         end.
Proof.
  intros Hfile w1.
  unfold RunAndQA.validate_roi_csv, path_exists, read_csv, to_csv.
  run_m. rewrite Hfile. simpl. rewrite Hfile.
  subst w1. unfold row_count_checked.
  destruct (n_rows t <? 10)%nat; simpl;
    (destruct (has_column "Amygdala_L" t); simpl; [|done]);
    (destruct (has_column "Amygdala_R" t); simpl; [|done]);
    (destruct (has_column "Asymmetry" t); simpl;
     [|destruct (assign_asymmetry t) as [df| |]; simpl; [|done..]]).
  all: rewrite report_run.
  all: match goal with
       | |- context [RunAndQA.qa_table ?d _] =>
           destruct (qa_table_reads_only d) as [o Ho]
       end; rewrite !Ho; simpl; by destruct o.
Qed.

End ValidatorRuns.

Section ValidatorOutcomes.

Lemma validate_roi_csv_no_table (path : string) (w : World) :
  (files w !! path = None ->
   RunAndQA.validate_roi_csv path w = (SystemExit (MissingResultsFile path), w))
  /\ (forall f, files w !! path = Some f -> (forall t, f <> CsvFile t) ->
      RunAndQA.validate_roi_csv path w = (Raised ParserError, w)).
Proof.
  unfold RunAndQA.validate_roi_csv, path_exists, read_csv. split.
  - intros H. run_m. by rewrite H.
  - intros f H Hf. run_m. rewrite H. simpl. rewrite H.
    destruct f; try done. by destruct (Hf t).
Qed.

(** A run that returns started from a file that parses as a table. *)
Lemma validate_roi_csv_returned (path : string) (w w' : World) (df : DataFrame) :
  RunAndQA.validate_roi_csv path w = (Returned df, w') ->
  exists t, files w !! path = Some (CsvFile t).
Proof.
  intros H. destruct (validate_roi_csv_no_table path w) as [Hnone Hother].
  destruct (files w !! path) as [f|] eqn:E.
  - destruct f as [t| | |]; [by exists t|..];
      rewrite (Hother _ eq_refl) in H by done; discriminate.
  - rewrite Hnone in H by done. discriminate.
Qed.

(** The validator writes nothing to a table that has the asymmetry column,
    and nothing when a hemisphere column is missing. *)
Lemma validate_roi_csv_no_write (path : string) (w : World) (t : DataFrame) :
  files w !! path = Some (CsvFile t) ->
  has_column "Asymmetry" t = true
  \/ has_column "Amygdala_L" t = false \/ has_column "Amygdala_R" t = false ->
  files (RunAndQA.validate_roi_csv path w).2 = files w
  /\ writes (RunAndQA.validate_roi_csv path w).2 = writes w.
Proof.
  intros Hfile H. rewrite (validate_roi_csv_run path w t Hfile).
  destruct (row_count_checked_files t w) as [Hf Hw].
  destruct (has_column "Amygdala_L" t); simpl; [|done].
  destruct (has_column "Amygdala_R" t); simpl; [|done].
  destruct (has_column "Asymmetry" t); simpl.
  - destruct (report_files t (row_count_checked t w)) as [-> ->]. done.
  - by destruct H as [?|[?|?]].
Qed.

(** What a returning run leaves behind. *)
Lemma validate_roi_csv_returned_table (path : string) (w w' : World) (t df : DataFrame) :
  files w !! path = Some (CsvFile t) ->
  RunAndQA.validate_roi_csv path w = (Returned df, w') ->
  has_column "Amygdala_L" t = true /\ has_column "Amygdala_R" t = true
  /\ files w' !! path = Some (CsvFile df)
  /\ (if has_column "Asymmetry" t then df = t else assign_asymmetry t = Returned df).
Proof.
  intros Hfile. rewrite (validate_roi_csv_run path w t Hfile).
  destruct (row_count_checked_files t w) as [Hf Hw].
  destruct (has_column "Amygdala_L" t); simpl; [|done].
  destruct (has_column "Amygdala_R" t); simpl; [|done].
  destruct (has_column "Asymmetry" t); simpl.
  - intros H. pose proof (report_returned _ _ _ _ H) as ->.
    destruct (report_files t (row_count_checked t w)) as [Hf' _].
    rewrite H in Hf'. simpl in Hf'. by rewrite Hf', Hf.
  - destruct (assign_asymmetry t) as [df0| |] eqn:E; [|done..].
    intros H. pose proof (report_returned _ _ _ _ H) as ->.
    match type of H with report _ ?w0 = _ =>
      destruct (report_files df0 w0) as [Hf' _] end.
    rewrite H in Hf'. simpl in Hf'. rewrite Hf'.
    by rewrite lookup_insert_eq.
Qed.

(** The table a returning run leaves on disk has the three columns. *)
Lemma validated_columns_on_disk (path : string) (w w' : World) (df : DataFrame) :
  RunAndQA.validate_roi_csv path w = (Returned df, w') ->
  files w' !! path = Some (CsvFile df)
  /\ has_column "Amygdala_L" df = true
  /\ has_column "Amygdala_R" df = true
  /\ has_column "Asymmetry" df = true.
Proof.
  intros Hrun.
  destruct (validate_roi_csv_returned _ _ _ _ Hrun) as [t Hfile].
  destruct (validate_roi_csv_returned_table _ _ _ _ _ Hfile Hrun)
    as (HL & HR & Hdisk & Hdf).
  split; [done|].
  destruct (has_column "Asymmetry" t) eqn:HA.
  - by subst df.
  - apply assign_asymmetry_returned in Hdf as (r & l & a & _ & _ & _ & ->).
    rewrite !has_column_setitem, HL, HR, HA. done.
Qed.

End ValidatorOutcomes.

(** C1. When [validate_roi_csv] returns, the table it returns has the
    columns [Amygdala_L], [Amygdala_R] and [Asymmetry], and the file at the
    path holds that very table, hence the same columns. *)
Theorem validated_table_has_required_columns
    (path : string) (w w' : World) (df : DataFrame)
    (Hrun : RunAndQA.validate_roi_csv path w = (Returned df, w')) :
  (has_column "Amygdala_L" df = true
   /\ has_column "Amygdala_R" df = true
   /\ has_column "Asymmetry" df = true)
  /\ exists on_disk,
       files w' !! path = Some (CsvFile on_disk)
       /\ on_disk = df
       /\ has_column "Amygdala_L" on_disk = true
       /\ has_column "Amygdala_R" on_disk = true
       /\ has_column "Asymmetry" on_disk = true.
Proof.
  destruct (validated_columns_on_disk _ _ _ _ Hrun) as (Hdisk & HL & HR & HA).
  split; [done|]. by exists df.
Qed.

Lemma validated_table_has_required_columns_witness :
  exists df w',
    RunAndQA.validate_roi_csv ROI_CSV (roi_world roi_without_asymmetry) = (Returned df, w')
    /\ (has_column "Amygdala_L" df = true
        /\ has_column "Amygdala_R" df = true
        /\ has_column "Asymmetry" df = true)
    /\ exists on_disk,
         files w' !! ROI_CSV = Some (CsvFile on_disk)
         /\ on_disk = df
         /\ has_column "Amygdala_L" on_disk = true
         /\ has_column "Amygdala_R" on_disk = true
         /\ has_column "Asymmetry" on_disk = true.
Proof.
  eexists _, _. split; [vm_compute; reflexivity|].
  eapply validated_table_has_required_columns with (w := roi_world roi_without_asymmetry).
  vm_compute. reflexivity.
Defined.

Section AsymmetryRows.

Lemma cell_float64 (df : DataFrame) (col : string) (row : nat) (x : F64.float) :
  cell df col row = Some x ->
  exists xs, getitem df col = Some (Float64 xs) /\ xs !! row = Some x.
Proof.
  unfold cell. destruct (getitem df col) as [[xs|xs]|]; [|done..].
  intros H. by exists xs.
Qed.

(** Dividing by a zero sum never gives a finite number. *)
Lemma asymmetry_index_zero_sum (r l : F64.float) :
  F64.is_zero (F64.add r l) = true ->
  F64.is_finite (asymmetry_index r l) = false.
Proof.
  unfold asymmetry_index, F64.div, SFdiv.
  destruct (F64.add r l); [|done..]. intros _.
  by destruct (F64.sub r l).
Qed.

End AsymmetryRows.

(** C2. Where the asymmetry column is derived (by [validate_roi_csv] for a
    file that lacks it, and by the assignment of script 02), the cell of
    every row with float64 hemisphere values [r] and [l] is the float64
    value of (r - l) / (r + l); the row keeps its place and its hemisphere
    values; when r + l is zero the cell is not finite (an infinity or NaN),
    and it is that cell that the returned table and the rewritten file
    hold. *)
Theorem asymmetry_derived_row_by_row
    (df df' : DataFrame) (row : nat) (r l : F64.float)
    (Hassign : assign_asymmetry df = Returned df')
    (Hr : cell df "Amygdala_R" row = Some r)
    (Hl : cell df "Amygdala_L" row = Some l) :
  cell df' "Asymmetry" row = Some (asymmetry_index r l)
  /\ cell df' "Amygdala_R" row = Some r
  /\ cell df' "Amygdala_L" row = Some l
  /\ (F64.is_zero (F64.add r l) = true ->
      F64.is_finite (asymmetry_index r l) = false
      /\ F64.is_zero (asymmetry_index r l) = false)
  /\ (forall (path : string) (w w' : World) (out : DataFrame),
        files w !! path = Some (CsvFile df) ->
        has_column "Asymmetry" df = false ->
        RunAndQA.validate_roi_csv path w = (Returned out, w') ->
        out = df' /\ files w' !! path = Some (CsvFile df')).
Proof.
  apply cell_float64 in Hr as (rs & Hrs & Hr).
  apply cell_float64 in Hl as (ls & Hls & Hl).
  apply assign_asymmetry_returned in Hassign as Hinv.
  destruct Hinv as (r0 & l0 & a & Hr0 & Hl0 & Ha & ->).
  rewrite Hrs in Hr0. rewrite Hls in Hl0.
  injection Hr0 as <-. injection Hl0 as <-.
  rewrite asymmetry_float64 in Ha. injection Ha as <-.
  unfold cell. rewrite getitem_setitem, !getitem_setitem_ne, Hrs, Hls by done.
  split; [|split; [done|split; [done|split]]].
  - rewrite lookup_zip_with, Hr. simpl. by rewrite Hl.
  - intros Hz. pose proof (asymmetry_index_zero_sum r l Hz) as Hnf.
    split; [done|]. by destruct (asymmetry_index r l).
  - intros path w w' out Hfile Hno Hrun.
    destruct (validate_roi_csv_returned_table _ _ _ _ _ Hfile Hrun)
      as (_ & _ & Hdisk & Hdf).
    rewrite Hno, Hassign in Hdf. injection Hdf as <-. done.
Qed.

Lemma asymmetry_derived_row_by_row_witness :
  let df' :=
    (roi_without_asymmetry ++
     [("Asymmetry",
       Float64 [S754_finite false 4503599627370496 (-53);
                S754_nan; S754_infinity true])])%list in
  cell df' "Asymmetry" 2 = Some (asymmetry_index (F64.of_Z (-3)) (F64.of_Z 3))
  /\ cell df' "Amygdala_R" 2 = Some (F64.of_Z (-3))
  /\ cell df' "Amygdala_L" 2 = Some (F64.of_Z 3)
  /\ (F64.is_zero (F64.add (F64.of_Z (-3)) (F64.of_Z 3)) = true ->
      F64.is_finite (asymmetry_index (F64.of_Z (-3)) (F64.of_Z 3)) = false
      /\ F64.is_zero (asymmetry_index (F64.of_Z (-3)) (F64.of_Z 3)) = false)
  /\ (forall (path : string) (w w' : World) (out : DataFrame),
        files w !! path = Some (CsvFile roi_without_asymmetry) ->
        has_column "Asymmetry" roi_without_asymmetry = false ->
        RunAndQA.validate_roi_csv path w = (Returned out, w') ->
        out = df' /\ files w' !! path = Some (CsvFile df')).
Proof.
  apply (asymmetry_derived_row_by_row roi_without_asymmetry _ 2%nat
           (F64.of_Z (-3)) (F64.of_Z 3));
    vm_compute; reflexivity.
Defined.

(** C3. A table that has the [Asymmetry] column, as every table left by a
    returning run has, is validated without a write: the files and the
    write log after the run are those before it. *)
Theorem validating_a_repaired_table_writes_nothing
    (path : string) (w : World)
    (Hrepaired :
       (exists t, files w !! path = Some (CsvFile t)
                  /\ has_column "Asymmetry" t = true)
       \/ (exists w0 df0, RunAndQA.validate_roi_csv path w0 = (Returned df0, w))) :
  files (RunAndQA.validate_roi_csv path w).2 = files w
  /\ writes (RunAndQA.validate_roi_csv path w).2 = writes w.
Proof.
  assert (exists t, files w !! path = Some (CsvFile t)
                    /\ has_column "Asymmetry" t = true) as (t & Hfile & Hasym).
  { destruct Hrepaired as [H | (w0 & df0 & Hrun)]; [done|].
    destruct (validated_columns_on_disk _ _ _ _ Hrun) as (Hdisk & _ & _ & HA).
    by exists df0. }
  apply (validate_roi_csv_no_write path w t Hfile). by left.
Qed.

Lemma validating_a_repaired_table_writes_nothing_witness :
  let w1 := (RunAndQA.validate_roi_csv ROI_CSV (roi_world roi_without_asymmetry)).2 in
  files (RunAndQA.validate_roi_csv ROI_CSV w1).2 = files w1
  /\ writes (RunAndQA.validate_roi_csv ROI_CSV w1).2 = writes w1.
Proof.
  apply validating_a_repaired_table_writes_nothing.
  right. eexists (roi_world roi_without_asymmetry), _.
  vm_compute. reflexivity.
Defined.

(** C4. A table without [Amygdala_L] or without [Amygdala_R] makes the
    validator leave through [sys.exit] with "Missing required column" for
    the first of the two that is missing, and nothing is written: the
    files and the write log are unchanged. *)
Theorem missing_hemisphere_column_aborts_without_write
    (path : string) (w : World) (t : DataFrame)
    (Hfile : files w !! path = Some (CsvFile t))
    (Hmissing : has_column "Amygdala_L" t = false
                \/ has_column "Amygdala_R" t = false) :
  let col := if has_column "Amygdala_L" t then "Amygdala_R" else "Amygdala_L" in
  has_column col t = false
  /\ (RunAndQA.validate_roi_csv path w).1 = SystemExit (MissingRequiredColumn col)
  /\ files (RunAndQA.validate_roi_csv path w).2 = files w
  /\ writes (RunAndQA.validate_roi_csv path w).2 = writes w.
Proof.
  intros col. split; [|split].
  - subst col. destruct (has_column "Amygdala_L" t) eqn:E; [|done].
    by destruct Hmissing.
  - subst col. rewrite (validate_roi_csv_run path w t Hfile).
    destruct (has_column "Amygdala_L" t) eqn:E; simpl; [|done].
    destruct Hmissing as [? | ->]; done.
  - apply (validate_roi_csv_no_write path w t Hfile). by right.
Qed.

Lemma missing_hemisphere_column_aborts_without_write_witness :
  let w := roi_world roi_missing_right in
  has_column "Amygdala_R" roi_missing_right = false
  /\ (RunAndQA.validate_roi_csv ROI_CSV w).1
     = SystemExit (MissingRequiredColumn "Amygdala_R")
  /\ files (RunAndQA.validate_roi_csv ROI_CSV w).2 = files w
  /\ writes (RunAndQA.validate_roi_csv ROI_CSV w).2 = writes w.
Proof.
  apply (missing_hemisphere_column_aborts_without_write
           ROI_CSV (roi_world roi_missing_right) roi_missing_right eq_refl).
  right. reflexivity.
Defined.

(** The scenario of twelve rows without the asymmetry column: no warning,
    the column is derived for the twelve rows, the file is rewritten once
    with four columns, and the summary counts twelve rows; a second run
    writes nothing more. *)
Lemma twelve_row_scenario :
  let first := RunAndQA.validate_roi_csv ROI_CSV (roi_world roi_twelve_rows) in
  let second := RunAndQA.validate_roi_csv ROI_CSV first.2 in
  exists df info,
    first.1 = Returned df
    /\ columns df = ["Subject"; "Amygdala_L"; "Amygdala_R"; "Asymmetry"]
    /\ getitem df "Asymmetry"
       = Some (Float64 (replicate 12 (asymmetry_index (F64.of_Z 3) (F64.of_Z 1))))
    /\ stdout first.2 = [MsgAddedAsymmetry; MsgQASummary info]
    /\ qa_n_rows info = 12%nat
    /\ files first.2 !! ROI_CSV = Some (CsvFile df)
    /\ writes first.2 = [ROI_CSV]
    /\ second.1 = Returned df
    /\ writes second.2 = [ROI_CSV].
Proof. vm_compute. eexists _, _. repeat split. Qed.

(** ** Runs of the column normalisation *)

Section NormalizerRuns.

Import ComputeAsymmetry.

Lemma with_columns_map (f : string -> string) (df : DataFrame) :
  with_columns df (map f (columns df)) = relabel f df.
Proof.
  unfold with_columns, relabel, columns.
  induction df as [|[c s] df IH]; [done|]. simpl. by rewrite IH.
Qed.

Lemma set_columns_run (st : Interp) (r : nat) (df : DataFrame) (names : list string) :
  heap st !! r = Some df ->
  set_columns r names st =
    (Returned tt, {| heap := <[r := with_columns df names]> (heap st); anx_df := anx_df st |}).
Proof. intros H. unfold set_columns, deref, store. run_m. by rewrite H. Qed.

Lemma rename_first_candidate_run (candidates : list string) (canonical : string)
    (st : Interp) (df : DataFrame) :
  heap st !! anx_df st = Some df ->
  rename_first_candidate candidates canonical st =
    (Returned tt,
     match List.find (fun c => PyStr.mem c (columns df)) candidates with
     | Some c => rebound (renamed [(c, canonical)] df) st
     | None => st
     end).
Proof.
  intros H. induction candidates as [|c cs IH]; [done|].
  cbn [rename_first_candidate List.find].
  unfold var_anx_df, deref. run_m. rewrite H. simpl.
  destruct (PyStr.mem c (columns df)); [|exact IH].
  unfold rename, alloc, deref, store, bind_anx_df. run_m. by rewrite H.
Qed.

Lemma resolve_run (canonical : string) (candidates : list string)
    (st : Interp) (df : DataFrame) :
  heap st !! anx_df st = Some df ->
  resolve canonical candidates st =
    (Returned tt,
     match first_match canonical candidates (columns df) with
     | Some c => rebound (renamed [(c, canonical)] df) st
     | None => st
     end).
Proof.
  intros H. unfold resolve, first_match, var_anx_df, deref. run_m. rewrite H. simpl.
  destruct (PyStr.mem canonical (columns df)); simpl; [done|].
  by apply rename_first_candidate_run.
Qed.

Lemma fresh_ref_ne (st : Interp) (r : nat) :
  is_Some (heap st !! r) -> fresh (dom (heap st)) <> r.
Proof.
  intros Hr Heq. apply elem_of_dom in Hr. rewrite <- Heq in Hr.
  by apply is_fresh in Hr.
Qed.

(** A resolution step: the frame bound afterwards, and the frames that
    were there before. *)
Lemma resolve_spec (canonical : string) (candidates : list string)
    (st : Interp) (df : DataFrame) :
  heap st !! anx_df st = Some df ->
  exists st',
    resolve canonical candidates st = (Returned tt, st')
    /\ heap st' !! anx_df st' = Some (resolved canonical candidates df)
    /\ (forall r, is_Some (heap st !! r) -> heap st' !! r = heap st !! r)
    /\ (st' = st \/ forall r, is_Some (heap st !! r) -> anx_df st' <> r).
Proof.
  intros H. eexists. split; [by apply resolve_run|].
  unfold resolved. destruct (first_match canonical candidates (columns df)) as [c|].
  - unfold rebound. simpl. split; [by rewrite lookup_insert_eq|]. split.
    + intros r Hr. rewrite lookup_insert_ne; [done|]. by apply fresh_ref_ne.
    + right. intros r Hr. by apply fresh_ref_ne.
  - split; [done|]. split; [done|]. by left.
Qed.

Lemma bind_step {S A B} (m : M S A) (f : A -> M S B) (s s' : S) (a : A) :
  m s = (Returned a, s') -> (m ≫= f) s = f a s'.
Proof. intros H. unfold mbind, M_bind. by rewrite H. Qed.

(** The whole normalisation: it returns; [anx_df] ends bound to the
    normalised table; the frame it was bound to at first holds that table
    too when no candidate was renamed, and its relabelled columns
    otherwise. *)
Lemma normalize_anxiety_columns_run (st : Interp) (df : DataFrame) :
  heap st !! anx_df st = Some df ->
  exists st',
    normalize_anxiety_columns st = (Returned tt, st')
    /\ heap st' !! anx_df st' = Some (normalized_table df)
    /\ (heap st' !! anx_df st = Some (normalized_table df)
        \/ heap st' !! anx_df st = Some (relabel normalized df)).
Proof.
  intros H. unfold normalize_anxiety_columns.
  erewrite bind_step; [|reflexivity].
  erewrite bind_step; [|by unfold deref; run_m; rewrite H].
  erewrite bind_step; [|by apply set_columns_run].
  change (map _ (columns df)) with (map normalized (columns df)).
  rewrite with_columns_map.
  set (st1 := {| heap := <[anx_df st := relabel normalized df]> (heap st);
                 anx_df := anx_df st |}).
  assert (heap st1 !! anx_df st1 = Some (relabel normalized df)) as H1
    by apply lookup_insert_eq.
  destruct (resolve_spec "subject" subject_candidates st1 _ H1)
    as (st2 & Hrun2 & H2 & Hold2 & Hsame2).
  erewrite bind_step; [|exact Hrun2].
  destruct (resolve_spec "stai_t" trait_candidates st2 _ H2)
    as (st3 & Hrun3 & H3 & Hold3 & Hsame3).
  erewrite bind_step; [|exact Hrun3].
  erewrite bind_step; [|reflexivity].
  unfold rename_inplace.
  erewrite bind_step; [|by unfold deref; run_m; rewrite H3].
  unfold store, modify. eexists. split; [reflexivity|]. simpl.
  split; [by rewrite lookup_insert_eq|].
  assert (is_Some (heap st1 !! anx_df st)) as Hr1 by (eexists; exact H1).
  assert (is_Some (heap st2 !! anx_df st)) as Hr2 by (by rewrite Hold2).
  destruct Hsame3 as [-> | Hne3].
  - destruct Hsame2 as [-> | Hne2].
    + left. apply lookup_insert_eq.
    + right. rewrite lookup_insert_ne by (by apply Hne2).
      by rewrite Hold2.
  - right. rewrite lookup_insert_ne by (by apply Hne3).
    by rewrite Hold3, Hold2.
Qed.

End NormalizerRuns.

(** ** The normalised table, label by label *)

Section NormalizedTable.

Import ComputeAsymmetry.

Lemma relabel_relabel (f g : string -> string) (df : DataFrame) :
  relabel f (relabel g df) = relabel (fun c => f (g c)) df.
Proof.
  unfold relabel. rewrite map_map. apply map_ext. by intros [c s].
Qed.

Lemma columns_relabel (f : string -> string) (df : DataFrame) :
  columns (relabel f df) = map f (columns df).
Proof.
  unfold relabel, columns. rewrite !map_map. apply map_ext. by intros [c s].
Qed.

Lemma relabel_lookup (f : string -> string) (df : DataFrame) (i : nat) (c : string) (s : Series) :
  df !! i = Some (c, s) -> relabel f df !! i = Some (f c, s).
Proof.
  revert i. unfold relabel.
  induction df as [|[c0 s0] df IH]; intros [|i]; simpl; try done.
  - by intros [= -> ->].
  - apply IH.
Qed.


Lemma resolved_relabel (canonical : string) (candidates : list string) (df : DataFrame) :
  resolved canonical candidates df
  = relabel (step_name canonical candidates (columns df)) df.
Proof.
  unfold resolved, step_name.
  destruct (first_match canonical candidates (columns df)) as [c|]; [done|].
  unfold relabel. rewrite <- (map_id df) at 1. apply map_ext. by intros [c s].
Qed.

(** The normalised table relabels the loaded one: same columns, same
    order, same values. *)
Lemma normalized_table_relabel (df : DataFrame) :
  let names := map normalized (columns df) in
  let g1 := step_name "subject" subject_candidates names in
  let g2 := step_name "stai_t" trait_candidates (map g1 names) in
  normalized_table df = relabel (fun c => capitalized (g2 (g1 (normalized c)))) df.
Proof.
  intros names g1 g2. unfold normalized_table.
  rewrite (resolved_relabel "subject"), columns_relabel. fold names. fold g1.
  rewrite relabel_relabel.
  rewrite (resolved_relabel "stai_t"), columns_relabel.
  unfold columns at 1. rewrite <- (map_map normalized g1).
  fold (columns df). fold names. fold g2.
  rewrite relabel_relabel. 
  change (renamed [("subject", "Subject"); ("stai_t", "STAI_T")]) with (relabel capitalized).
  by rewrite relabel_relabel.
Qed.

Lemma first_match_in (canonical : string) (candidates names : list string) (c : string) :
  first_match canonical candidates names = Some c ->
  In c candidates /\ PyStr.mem c names = true /\ PyStr.mem canonical names = false.
Proof.
  unfold first_match. destruct (PyStr.mem canonical names); [done|].
  intros H. apply find_some in H as [Hin Hm]. done.
Qed.


Lemma first_match_none (canonical : string) (candidates names : list string) :
  Forall (fun c => PyStr.mem c names = false) candidates ->
  first_match canonical candidates names = None.
Proof.
  intros H. unfold first_match. destruct (PyStr.mem canonical names); [done|].
  induction H as [|c cs Hc _ IH]; simpl; [done|]. by rewrite Hc.
Qed.


(** A step leaves alone every label that is not its candidate. *)
Lemma step_name_other (canonical : string) (candidates names : list string) (label : string) :
  ~ In label candidates ->
  step_name canonical candidates names label = label.
Proof.
  intros Hnot. unfold step_name.
  destruct (first_match canonical candidates names) as [c|] eqn:E; [|done].
  apply first_match_in in E as (Hin & _). simpl.
  destruct (String.eqb_spec label c) as [->|]; done.
Qed.



End NormalizedTable.






(** * Further properties of the code *)

(** ** The validator *)

(** X1. Without a file at the path the validator leaves through [sys.exit]
    with "Missing results file" before anything else: nothing is printed,
    nothing is written. *)
Theorem validator_stops_at_missing_file
    (path : string) (w : World)
    (Hmissing : files w !! path = None) :
  RunAndQA.validate_roi_csv path w = (SystemExit (MissingResultsFile path), w).
Proof. by apply validate_roi_csv_no_table. Qed.

Lemma validator_stops_at_missing_file_witness :
  RunAndQA.validate_roi_csv "results/other.csv" (roi_world roi_without_asymmetry)
  = (SystemExit (MissingResultsFile "results/other.csv"),
     roi_world roi_without_asymmetry).
Proof. by apply validator_stops_at_missing_file. Defined.

(** X2. Whatever the world and however the run ends, the validator leaves
    every other path as it was, writes at most once and then to its own
    path, and only adds to what was printed. *)
Theorem validator_touches_only_its_path (path : string) (w : World) :
  let w' := (RunAndQA.validate_roi_csv path w).2 in
  (forall p, p <> path -> files w' !! p = files w !! p)
  /\ (writes w' = writes w \/ writes w' = (writes w ++ [path])%list)
  /\ (exists more, stdout w' = (stdout w ++ more)%list)
  /\ HAVE_NILEARN w' = HAVE_NILEARN w
  /\ harvard_oxford w' = harvard_oxford w.
Proof.
  destruct (validate_roi_csv_no_table path w) as [Hnone Hother].
  destruct (files w !! path) as [f|] eqn:E.
  2:{ rewrite Hnone by done. simpl. repeat split; try done; [by left | by exists []; rewrite app_nil_r]. }
  destruct f as [t| | |].
  2-4: rewrite (Hother _ eq_refl) by done; simpl;
       repeat split; try done; [by left | by exists []; rewrite app_nil_r].
  rewrite (validate_roi_csv_run path w t E).
  assert (exists warn, row_count_checked t w = printed warn w) as [warn ->].
  { unfold row_count_checked. destruct (n_rows t <? 10)%nat; [by eexists|].
    exists []. unfold printed. rewrite app_nil_r. by destruct w. }
  destruct (has_column "Amygdala_L" t); simpl.
  2:{ repeat split; try done; [by left | by exists warn]. }
  destruct (has_column "Amygdala_R" t); simpl.
  2:{ repeat split; try done; [by left | by exists warn]. }
  destruct (has_column "Asymmetry" t); simpl.
  - rewrite report_run. destruct (RunAndQA.qa_table _ _).1; simpl;
      repeat split; try done; try (by left); try (by exists warn).
    exists (warn ++ [MsgQASummary a])%list. by rewrite app_assoc.
  - destruct (assign_asymmetry t) as [df| |]; simpl.
    2-3: repeat split; try done; [by left | by exists warn].
    rewrite report_run. destruct (RunAndQA.qa_table _ _).1; simpl;
      repeat split; try done; try (by right);
      try (intros p Hp; by rewrite lookup_insert_ne).
    + exists (warn ++ [MsgAddedAsymmetry; MsgQASummary a])%list.
      by rewrite <- !app_assoc.
    + exists (warn ++ [MsgAddedAsymmetry])%list. by rewrite <- !app_assoc.
    + exists (warn ++ [MsgAddedAsymmetry])%list. by rewrite <- !app_assoc.
Qed.

Section Summary.

Lemma has_column_getitem (df : DataFrame) (col : string) :
  has_column col df = true <-> is_Some (getitem df col).
Proof.
  unfold has_column, columns, PyStr.mem.
  induction df as [|[c s] df IH]; simpl.
  - split; [done | by intros [? ?]].
  - destruct (String.eqb col c); simpl; [|done]. split; eauto.
Qed.

Lemma has_column_false_getitem (df : DataFrame) (col : string) :
  has_column col df = false <-> getitem df col = None.
Proof.
  rewrite <- not_true_iff_false, has_column_getitem, eq_None_not_Some. done.
Qed.

(** The mean the summary takes of one column. *)
Lemma mean_if_present_run (df : DataFrame) (col : string) (w : World) :
  RunAndQA.mean_if_present df col w =
    (match getitem df col with
     | None => Returned None
     | Some s => m ← series_mean s; mret (Some m)
     end, w).
Proof.
  unfold RunAndQA.mean_if_present.
  destruct (has_column col df) eqn:E.
  - apply has_column_getitem in E as [s Hs]. unfold column. rewrite Hs.
    run_m. by destruct (series_mean s).
  - apply has_column_false_getitem in E. by rewrite E.
Qed.

Lemma series_mean_averageable (df : DataFrame) (col : string) :
  averageable df col = true ->
  exists m, match getitem df col with
            | None => Returned None
            | Some s => x ← series_mean s; mret (Some x)
            end = Returned m
            /\ (m = None <-> has_column col df = false).
Proof.
  unfold averageable. setoid_rewrite has_column_false_getitem.
  destruct (getitem df col) as [[xs|[|x xs]]|]; try done; intros _; simpl;
    eexists; (split; [done|]); done.
Qed.

Lemma series_mean_not_averageable (df : DataFrame) (col : string) :
  averageable df col = false ->
  match getitem df col with
  | None => Returned None
  | Some s => x ← series_mean s; mret (Some x)
  end = Raised TypeError.
Proof.
  unfold averageable. by destruct (getitem df col) as [[xs|[|x xs]]|].
Qed.

(** The summary of a summarizable table. *)
Lemma qa_table_summarizable (df : DataFrame) (w : World) :
  summarizable df = true ->
  exists info,
    (RunAndQA.qa_table df w).1 = Returned info /\ qa_n_rows info = n_rows df.
Proof.
  unfold summarizable. intros [[HL HR]%andb_true_iff HA]%andb_true_iff.
  destruct (series_mean_averageable df _ HL) as (mL & EL & _).
  destruct (series_mean_averageable df _ HR) as (mR & ER & _).
  destruct (series_mean_averageable df _ HA) as (mA & EA & _).
  unfold RunAndQA.qa_table.
  unfold mbind, M_bind. rewrite mean_if_present_run, EL.
  rewrite mean_if_present_run, ER. rewrite mean_if_present_run, EA.
  by eexists.
Qed.

End Summary.

(** X3. A table with few rows, or none, is validated all the same: with the
    three columns present and averageable it is returned as it is, nothing
    is written, and the row-count warning (below ten rows) precedes the
    summary. *)
Theorem short_table_is_validated_with_warning
    (path : string) (w : World) (t : DataFrame)
    (Hfile : files w !! path = Some (CsvFile t))
    (HL : has_column "Amygdala_L" t = true)
    (HR : has_column "Amygdala_R" t = true)
    (HA : has_column "Asymmetry" t = true)
    (Hsum : summarizable t = true) :
  exists info,
    RunAndQA.validate_roi_csv path w =
      (Returned t,
       printed
         ((if (n_rows t <? 10)%nat then [MsgFewRows (n_rows t)] else [])
          ++ [MsgQASummary info]) w)
    /\ qa_n_rows info = n_rows t.
Proof.
  rewrite (validate_roi_csv_run path w t Hfile), HL, HR, HA. simpl.
  rewrite report_run.
  destruct (qa_table_summarizable t (row_count_checked t w) Hsum) as (info & Hq & Hn).
  rewrite Hq. exists info. split; [|done].
  unfold row_count_checked. destruct (n_rows t <? 10)%nat; simpl.
  - unfold printed. simpl. by rewrite <- app_assoc.
  - done.
Qed.

Lemma short_table_is_validated_with_warning_witness :
  exists info,
    RunAndQA.validate_roi_csv ROI_CSV (roi_world roi_no_rows) =
      (Returned roi_no_rows,
       printed ([MsgFewRows 0] ++ [MsgQASummary info]) (roi_world roi_no_rows))
    /\ qa_n_rows info = 0%nat.
Proof.
  apply (short_table_is_validated_with_warning ROI_CSV (roi_world roi_no_rows) roi_no_rows);
    reflexivity.
Defined.

(** X4. The repair appends: when the file lacks the asymmetry column and
    the run returns, the returned table is the table of the file with one
    column, "Asymmetry", after the others; it is written to the path, once,
    and the note about the added column is printed before the summary. *)
Theorem repair_appends_the_asymmetry_column
    (path : string) (w w' : World) (t df : DataFrame)
    (Hfile : files w !! path = Some (CsvFile t))
    (Hno : has_column "Asymmetry" t = false)
    (Hrun : RunAndQA.validate_roi_csv path w = (Returned df, w')) :
  exists a info,
    df = (t ++ [("Asymmetry", a)])%list
    /\ files w' = <[path := CsvFile df]> (files w)
    /\ writes w' = (writes w ++ [path])%list
    /\ stdout w' =
         (stdout (row_count_checked t w) ++ [MsgAddedAsymmetry; MsgQASummary info])%list.
Proof.
  rewrite (validate_roi_csv_run path w t Hfile) in Hrun.
  destruct (row_count_checked_files t w) as [Hf Hw].
  destruct (has_column "Amygdala_L" t); simpl in Hrun; [|done].
  destruct (has_column "Amygdala_R" t); simpl in Hrun; [|done].
  rewrite Hno in Hrun.
  destruct (assign_asymmetry t) as [df0| |] eqn:E; [|done..].
  destruct (repair_appends_column t df0 Hno E) as [a Ha].
  rewrite report_run in Hrun.
  destruct (RunAndQA.qa_table _ _).1 as [info| |]; [|done..].
  injection Hrun as <- <-. exists a, info. simpl.
  rewrite Hf, Hw. repeat split; try done. by rewrite <- app_assoc.
Qed.

Lemma repair_appends_the_asymmetry_column_witness :
  let w := roi_world roi_without_asymmetry in
  let w' := (RunAndQA.validate_roi_csv ROI_CSV w).2 in
  exists df a info,
    RunAndQA.validate_roi_csv ROI_CSV w = (Returned df, w')
    /\ df = (roi_without_asymmetry ++ [("Asymmetry", a)])%list
    /\ files w' = <[ROI_CSV := CsvFile df]> (files w)
    /\ writes w' = (writes w ++ [ROI_CSV])%list
    /\ stdout w' =
         (stdout (row_count_checked roi_without_asymmetry w)
          ++ [MsgAddedAsymmetry; MsgQASummary info])%list.
Proof.
  intros w w'.
  assert (exists df, RunAndQA.validate_roi_csv ROI_CSV w = (Returned df, w'))
    as [df Hrun] by (eexists; vm_compute; reflexivity).
  destruct (repair_appends_the_asymmetry_column
              ROI_CSV w w' roi_without_asymmetry df eq_refl eq_refl Hrun)
    as (a & info & H).
  exists df, a, info. exact (conj Hrun H).
Defined.

Section TextColumns.

Lemma some_row_present (r l : Series) :
  (exists row, present_cells r !! row = Some true
               /\ present_cells l !! row = Some true) ->
  existsb id (zip_with andb (present_cells r) (present_cells l)) = true.
Proof.
  intros (row & Hr & Hl). apply existsb_exists. exists true. split; [|done].
  apply list_elem_of_In, list_elem_of_lookup. exists row.
  by rewrite lookup_zip_with, Hr; simpl; rewrite Hl.
Qed.

Lemma div_nan_column (both : list bool) :
  zip_with F64.div (map (fun _ => F64.nan) both) (map (fun _ => F64.nan) both)
  = map (fun _ => F64.nan) both.
Proof. induction both as [|b both IH]; [done|]. simpl. by rewrite IH. Qed.

(** The derivation on a text column none of whose cells faces a value:
    nothing is applied, every row of the result is missing. *)
Lemma asymmetry_all_missing (r l : Series) :
  (exists xs, r = Object xs) \/ (exists xs, l = Object xs) ->
  existsb id (zip_with andb (present_cells r) (present_cells l)) = false ->
  exists a, asymmetry r l = Returned a
            /\ Forall (fun b => b = false) (present_cells a).
Proof.
  intros Htext Hnone. unfold asymmetry.
  set (both := zip_with andb (present_cells r) (present_cells l)) in *.
  assert (forall op, series_arith op r l =
            match both with
            | [] => Returned (Object [])
            | _ => Returned (Float64 (map (fun _ => F64.nan) both))
            end) as Harith.
  { intros op. unfold series_arith. fold both. rewrite Hnone.
    destruct Htext as [[xs ->] | [xs ->]]; [done|]. by destruct r. }
  rewrite !Harith. destruct both as [|b both'] eqn:E.
  - exists (Object []). split; [done | constructor].
  - set (nans := map (fun _ => F64.nan) (b :: both')).
    exists (Float64 nans). split.
    + simpl. subst nans. by rewrite div_nan_column.
    + subst nans. simpl. constructor; [done|].
      apply Forall_forall. intros x Hx.
      apply list_elem_of_In, in_map_iff in Hx as (y & <- & Hy).
      apply in_map_iff in Hy as (z & <- & _). done.
Qed.

(** The summary of a table it cannot average. *)
Lemma qa_table_not_summarizable (df : DataFrame) (w : World) :
  summarizable df = false -> (RunAndQA.qa_table df w).1 = Raised TypeError.
Proof.
  unfold summarizable, RunAndQA.qa_table, mbind, M_bind.
  rewrite mean_if_present_run.
  destruct (averageable df "Amygdala_L") eqn:HL.
  2:{ by rewrite series_mean_not_averageable. }
  destruct (series_mean_averageable df _ HL) as (mL & -> & _).
  rewrite mean_if_present_run.
  destruct (averageable df "Amygdala_R") eqn:HR.
  2:{ by rewrite series_mean_not_averageable. }
  destruct (series_mean_averageable df _ HR) as (mR & -> & _).
  rewrite mean_if_present_run.
  destruct (averageable df "Asymmetry") eqn:HA; [done|].
  by rewrite series_mean_not_averageable.
Qed.

End TextColumns.

(** X5. A text cell facing a value is not repaired: when a hemisphere
    column is text and some row has both its hemisphere cells present, the
    subtraction raises [TypeError] before the table is written, and the file
    stays as it was. *)
Theorem text_hemisphere_column_is_not_repaired
    (path : string) (w : World) (t : DataFrame) (r l : Series)
    (Hfile : files w !! path = Some (CsvFile t))
    (Hno : has_column "Asymmetry" t = false)
    (HR : getitem t "Amygdala_R" = Some r)
    (HL : getitem t "Amygdala_L" = Some l)
    (Htext : (exists xs, r = Object xs) \/ (exists xs, l = Object xs))
    (Hrow : exists row, present_cells r !! row = Some true
                        /\ present_cells l !! row = Some true) :
  (RunAndQA.validate_roi_csv path w).1 = Raised TypeError
  /\ files (RunAndQA.validate_roi_csv path w).2 = files w
  /\ writes (RunAndQA.validate_roi_csv path w).2 = writes w.
Proof.
  rewrite (validate_roi_csv_run path w t Hfile).
  destruct (row_count_checked_files t w) as [Hf Hw].
  assert (has_column "Amygdala_L" t = true) as ->
    by (apply has_column_getitem; by rewrite HL).
  assert (has_column "Amygdala_R" t = true) as ->
    by (apply has_column_getitem; by rewrite HR).
  rewrite Hno. simpl.
  assert (assign_asymmetry t = Raised TypeError) as ->; [|done].
  unfold assign_asymmetry, column. rewrite HR, HL. simpl.
  unfold asymmetry.
  assert (series_arith F64.sub r l = Raised TypeError) as ->; [|done].
  unfold series_arith. rewrite (some_row_present r l Hrow).
  destruct Htext as [[xs ->] | [xs ->]]; [done|]. by destruct r.
Qed.

Lemma text_hemisphere_column_is_not_repaired_witness :
  (RunAndQA.validate_roi_csv ROI_CSV (roi_world roi_text_right)).1 = Raised TypeError
  /\ files (RunAndQA.validate_roi_csv ROI_CSV (roi_world roi_text_right)).2
     = files (roi_world roi_text_right)
  /\ writes (RunAndQA.validate_roi_csv ROI_CSV (roi_world roi_text_right)).2
     = writes (roi_world roi_text_right).
Proof.
  apply (text_hemisphere_column_is_not_repaired ROI_CSV (roi_world roi_text_right)
           roi_text_right (Object ["left"]) (Float64 [F64.of_Z 1]));
    try reflexivity.
  - left. by eexists.
  - by exists 0%nat.
Defined.

(** X29. A text cell facing only missing values does not stop the repair:
    when a hemisphere column is text with rows and no row has both its
    hemisphere cells present, the asymmetry column is derived with every
    row missing and the table is written to the path; the [TypeError] then
    comes from the summary, which cannot average the text column. *)
Theorem text_facing_missing_values_is_repaired
    (path : string) (w : World) (t : DataFrame) (r l : Series)
    (Hfile : files w !! path = Some (CsvFile t))
    (Hno : has_column "Asymmetry" t = false)
    (HR : getitem t "Amygdala_R" = Some r)
    (HL : getitem t "Amygdala_L" = Some l)
    (Htext : (exists x xs, r = Object (x :: xs)) \/ (exists x xs, l = Object (x :: xs)))
    (Hnone : existsb id (zip_with andb (present_cells r) (present_cells l)) = false) :
  exists a,
    (RunAndQA.validate_roi_csv path w).1 = Raised TypeError
    /\ files (RunAndQA.validate_roi_csv path w).2 !! path
       = Some (CsvFile (t ++ [("Asymmetry", a)])%list)
    /\ writes (RunAndQA.validate_roi_csv path w).2 = (writes w ++ [path])%list
    /\ Forall (fun b => b = false) (present_cells a).
Proof.
  destruct (asymmetry_all_missing r l) as (a & Ha & Hmissing); [|done|].
  { destruct Htext as [(x & xs & ->) | (x & xs & ->)]; [left | right]; by eexists. }
  exists a.
  rewrite (validate_roi_csv_run path w t Hfile).
  destruct (row_count_checked_files t w) as [Hf Hw].
  assert (has_column "Amygdala_L" t = true) as HcL
    by (apply has_column_getitem; by rewrite HL).
  assert (has_column "Amygdala_R" t = true) as HcR
    by (apply has_column_getitem; by rewrite HR).
  rewrite HcL, HcR, Hno. simpl.
  assert (assign_asymmetry t = Returned (t ++ [("Asymmetry", a)])%list) as ->.
  { unfold assign_asymmetry, column. rewrite HR, HL. simpl. rewrite Ha. simpl.
    by rewrite setitem_absent. }
  rewrite report_run, qa_table_not_summarizable.
  - simpl. rewrite lookup_insert_eq, Hw. done.
  - rewrite <- (setitem_absent t "Asymmetry" a Hno).
    unfold summarizable, averageable. rewrite !getitem_setitem_ne, HR, HL by done.
    destruct Htext as [(x & xs & ->) | (x & xs & ->)]; [|done].
    by destruct l as [ls|[|? ?]].
Qed.

Lemma text_facing_missing_values_is_repaired_witness :
  let w' := (RunAndQA.validate_roi_csv ROI_CSV (roi_world roi_text_facing_missing)).2 in
  exists a,
    (RunAndQA.validate_roi_csv ROI_CSV (roi_world roi_text_facing_missing)).1
      = Raised TypeError
    /\ files w' !! ROI_CSV
       = Some (CsvFile (roi_text_facing_missing ++ [("Asymmetry", a)])%list)
    /\ writes w' = [ROI_CSV]
    /\ Forall (fun b => b = false) (present_cells a).
Proof.
  intros w'.
  apply (text_facing_missing_values_is_repaired ROI_CSV
           (roi_world roi_text_facing_missing) roi_text_facing_missing
           (Object ["left"]) (Float64 [F64.nan]));
    try reflexivity.
  left. by eexists _, _.
Defined.

(** X6. The summary only reads: it leaves the world as it is, never exits,
    and raises ([TypeError]) exactly when one of the three columns it
    averages is text with rows. What it returns counts the rows, lists the
    columns, and has a mean for a column exactly when the column is
    present. *)
Theorem summary_reads_and_reports (df : DataFrame) (w : World) :
  (RunAndQA.qa_table df w).2 = w
  /\ (summarizable df = false -> (RunAndQA.qa_table df w).1 = Raised TypeError)
  /\ (summarizable df = true ->
      exists info,
        (RunAndQA.qa_table df w).1 = Returned info
        /\ qa_n_rows info = n_rows df
        /\ qa_columns info = columns df
        /\ has_STAI_T info = has_column "STAI_T" df
        /\ has_L info = has_column "Amygdala_L" df
        /\ has_R info = has_column "Amygdala_R" df
        /\ (mean_L info = None <-> has_column "Amygdala_L" df = false)
        /\ (mean_R info = None <-> has_column "Amygdala_R" df = false)
        /\ (mean_Asym info = None <-> has_column "Asymmetry" df = false)).
Proof.
  split; [by rewrite qa_table_world|].
  unfold summarizable, RunAndQA.qa_table, mbind, M_bind.
  rewrite mean_if_present_run.
  destruct (averageable df "Amygdala_L") eqn:HL.
  2:{ rewrite series_mean_not_averageable by done. by split. }
  destruct (series_mean_averageable df _ HL) as (mL & -> & HmL).
  rewrite mean_if_present_run.
  destruct (averageable df "Amygdala_R") eqn:HR.
  2:{ rewrite series_mean_not_averageable by done. by split. }
  destruct (series_mean_averageable df _ HR) as (mR & -> & HmR).
  rewrite mean_if_present_run.
  destruct (averageable df "Asymmetry") eqn:HA.
  2:{ rewrite series_mean_not_averageable by done. by split. }
  destruct (series_mean_averageable df _ HA) as (mA & -> & HmA).
  split; [done|]. intros _. eexists. split; [done|]. simpl. done.
Qed.

Lemma summary_reads_and_reports_witness :
  (RunAndQA.qa_table roi_text_right (roi_world roi_text_right)).1 = Raised TypeError
  /\ exists info,
       (RunAndQA.qa_table roi_no_rows (roi_world roi_no_rows)).1 = Returned info
       /\ qa_n_rows info = 0%nat
       /\ (mean_L info = None <-> has_column "Amygdala_L" roi_no_rows = false).
Proof.
  split.
  - by apply (summary_reads_and_reports roi_text_right (roi_world roi_text_right)).
  - destruct (summary_reads_and_reports roi_no_rows (roi_world roi_no_rows))
      as (_ & _ & H).
    destruct (H eq_refl) as (info & Hq & Hn & _ & _ & _ & _ & HmL & _).
    by exists info.
Defined.

(** ** The mask builder of [run_and_qa.py] *)

(** X7. Without the neuroimaging libraries the overlay fix is skipped: one
    line is printed, the atlas is not fetched, nothing is written, and the
    call returns. *)
Theorem overlay_fix_skipped_without_nilearn
    (w : World) (Hlib : HAVE_NILEARN w = false) :
  RunAndQA.fix_overlay_mask_and_render w = (Returned tt, printed [MsgSkipOverlay] w).
Proof.
  unfold RunAndQA.fix_overlay_mask_and_render. run_m. by rewrite Hlib.
Qed.

Lemma overlay_fix_skipped_without_nilearn_witness :
  RunAndQA.fix_overlay_mask_and_render (roi_world roi_no_rows)
  = (Returned tt, printed [MsgSkipOverlay] (roi_world roi_no_rows)).
Proof. by apply overlay_fix_skipped_without_nilearn. Defined.

Section OverlayFixOutcomes.



End OverlayFixOutcomes.


(** X9. A label volume without voxels makes the coverage division raise
    [ZeroDivisionError] once some label is selected, before anything is
    written; with no label selected the run returns before dividing. *)
Theorem empty_volume_divides_by_zero
    (w : World) (ho : Atlas) (img : NiftiImage)
    (Hlib : HAVE_NILEARN w = true)
    (Hfetch : harvard_oxford w = Some ho)
    (Himg : atlas_image w ho = Some img)
    (Hempty : dataobj img = []) :
  RunAndQA.fix_overlay_mask_and_render w =
    if bool_decide (RunAndQA.amyg_indices (RunAndQA.clean_labels (labels ho)) = [])
    then (Returned tt, printed [MsgAutoFixing; MsgNoAmygdalaLabels] w)
    else (Raised ZeroDivisionError, printed [MsgAutoFixing] w).
Proof.
  rewrite (fix_overlay_run w ho img Hlib Hfetch Himg).
  case_bool_decide; [done|]. by rewrite bool_decide_eq_true_2.
Qed.

Lemma empty_volume_divides_by_zero_witness :
  let ho := {| labels := ["Left Amygdala"]; maps := MapsImage empty_volume |} in
  RunAndQA.fix_overlay_mask_and_render (world_with_atlas ho)
  = (Raised ZeroDivisionError, printed [MsgAutoFixing] (world_with_atlas ho)).
Proof.
  intros ho.
  by rewrite (empty_volume_divides_by_zero (world_with_atlas ho) ho empty_volume).
Defined.

Section MaskCounts.

(** The ones of a mask are the voxels carrying a selected label. *)
Lemma ones_mask_of (atlas_data : list Z) (indices : list nat) :
  ones (mask_of atlas_data indices)
  = length (List.filter (fun v => isin v indices) atlas_data).
Proof.
  unfold ones, mask_of. induction atlas_data as [|v d IH]; [done|].
  simpl. destruct (isin v indices); simpl; by rewrite IH.
Qed.

Lemma mask_of_no_voxel (atlas_data : list Z) (indices : list nat) :
  Forall (fun v => isin v indices = false) atlas_data ->
  mask_of atlas_data indices = replicate (length atlas_data) 0
  /\ ones (mask_of atlas_data indices) = 0%nat.
Proof.
  intros H. rewrite ones_mask_of. unfold mask_of.
  induction H as [|v d Hv _ [IH1 IH2]]; [done|].
  simpl. by rewrite Hv, IH1, IH2.
Qed.

(** A quotient of zero is never above the threshold. *)
Lemma zero_share_not_oversized (y : F64.float) :
  F64.ltb F64.lit_0_02 (F64.div (S754_zero false) y) = false.
Proof. by destruct y as [| | |[] ? ?]. Qed.

End MaskCounts.

(** X10. Only an empty selection is reported. When labels are selected but
    no voxel of the volume carries one of them, the run returns as usual:
    an all-zero mask is written and drawn, and no coverage warning is
    printed. *)
Theorem all_zero_mask_is_written_silently
    (w : World) (ho : Atlas) (img : NiftiImage)
    (Hlib : HAVE_NILEARN w = true)
    (Hfetch : harvard_oxford w = Some ho)
    (Himg : atlas_image w ho = Some img)
    (Hidx : RunAndQA.amyg_indices (RunAndQA.clean_labels (labels ho)) <> [])
    (Hdata : dataobj img <> [])
    (Hnone : Forall (fun v => isin v (RunAndQA.amyg_indices
                                        (RunAndQA.clean_labels (labels ho))) = false)
               (dataobj img)) :
  let mask := Nifti1Image (replicate (length (dataobj img)) 0) img in
  RunAndQA.fix_overlay_mask_and_render w =
    (Returned tt,
     printed [MsgRendering; MsgSavedOverlay]
       (written FIG4 (PngFile mask)
          (written MASK_PATH (NiftiFile mask) (printed [MsgAutoFixing] w)))).
Proof.
  intros mask.
  rewrite (fix_overlay_run w ho img Hlib Hfetch Himg).
  rewrite !bool_decide_eq_false_2 by done.
  destruct (mask_of_no_voxel _ _ Hnone) as [Hmask Hones].
  unfold oversized, coverage, amygdala_mask. simpl.
  rewrite Hones. change (F64.of_Z (Z.of_nat 0)) with (S754_zero false).
  rewrite zero_share_not_oversized. by rewrite Hmask.
Qed.

Lemma all_zero_mask_is_written_silently_witness :
  let ho := {| labels := ["Background"; "Left Amygdala"];
               maps := MapsImage {| shape := [2; 1; 1]%nat; dataobj := [0; 0];
                                    affine := []; header := "n+1" |} |} in
  let mask := {| shape := [2; 1; 1]%nat; dataobj := [0; 0];
                 affine := []; header := "n+1" |} in
  RunAndQA.fix_overlay_mask_and_render (world_with_atlas ho) =
    (Returned tt,
     printed [MsgRendering; MsgSavedOverlay]
       (written FIG4 (PngFile mask)
          (written MASK_PATH (NiftiFile mask)
             (printed [MsgAutoFixing] (world_with_atlas ho))))).
Proof.
  intros ho mask.
  apply (all_zero_mask_is_written_silently (world_with_atlas ho) ho
           {| shape := [2; 1; 1]%nat; dataobj := [0; 0];
              affine := []; header := "n+1" |});
    try reflexivity; try discriminate.
  repeat constructor.
Defined.

Section SelectedPositions.

(** The positions a comprehension over [enumerate] keeps come in increasing
    order and lie within the list. *)
Lemma kept_positions_sorted {A} (p : A -> bool) (l : list A) (k : nat) :
  let sel := map fst (List.filter (fun '(_, x) => p x) (zip (seq k (length l)) l)) in
  StronglySorted lt sel /\ Forall (fun i => (k <= i < k + length l)%nat) sel.
Proof.
  revert k. induction l as [|x l IH]; intros k; simpl.
  - split; constructor.
  - destruct (IH (S k)) as [Hs Hr].
    assert (Forall (fun i => (k <= i < k + S (length l))%nat)
              (map fst (List.filter (fun '(_, x) => p x) (zip (seq (S k) (length l)) l))))
      as Hr' by (eapply Forall_impl; [exact Hr | intros i ?; simpl in *; lia]).
    destruct (p x); simpl; [|done]. split.
    + constructor; [done|]. eapply Forall_impl; [exact Hr | intros i ?; simpl in *; lia].
    + constructor; [lia | done].
Qed.

End SelectedPositions.

(** X11. The selected indices come in strictly increasing order (so none
    twice) and each is a position of the label list; hence a voxel whose
    value is negative or not below the number of labels is never in the
    mask. *)
Theorem selected_indices_are_increasing_positions
    (target exclusion : string) (labels : list string) :
  let selected := RunAndQA.matching_indices target exclusion labels in
  StronglySorted lt selected
  /\ Forall (fun i => (i < length labels)%nat) selected
  /\ (forall v : Z, v < 0 \/ Z.of_nat (length labels) <= v -> isin v selected = false).
Proof.
  intros selected.
  destruct (kept_positions_sorted
              (fun name => PyStr.contains target name && negb (PyStr.contains exclusion name))
              labels 0) as [Hs Hr].
  assert (Forall (fun i => (i < length labels)%nat) selected) as Hr'
    by (eapply Forall_impl; [exact Hr | intros i ?; simpl in *; lia]).
  split; [exact Hs|]. split; [done|].
  intros v Hv. apply not_true_is_false. intros (i & Hi & ->)%isin_spec.
  rewrite Forall_forall in Hr'. apply Hr' in Hi. lia.
Qed.

Section TwoSelections.

(** On one list of labels, what the strict test selects the loose test
    selects too. *)
Lemma strict_within_loose (labels : list string) (atlas_data : list Z) :
  (forall i, i ∈ RunAndQA.amyg_indices labels -> i ∈ GenerateFigures.amyg_indices labels)
  /\ (forall k, mask_of atlas_data (RunAndQA.amyg_indices labels) !! k = Some 1 ->
                mask_of atlas_data (GenerateFigures.amyg_indices labels) !! k = Some 1)
  /\ (Forall (fun name => PyStr.contains "Extended" name = false) labels ->
      RunAndQA.amyg_indices labels = GenerateFigures.amyg_indices labels).
Proof.
  assert (forall i, i ∈ RunAndQA.amyg_indices labels ->
                    i ∈ GenerateFigures.amyg_indices labels) as Hsub.
  { intros i. unfold RunAndQA.amyg_indices, RunAndQA.matching_indices,
      GenerateFigures.amyg_indices.
    rewrite (elem_of_kept_positions
               (fun name => PyStr.contains "Amygdala" name
                            && negb (PyStr.contains "Extended" name))).
    rewrite (elem_of_kept_positions (fun name => PyStr.contains "Amygdala" name)).
    intros (name & Hl & [H _]%andb_true_iff). by exists name. }
  split; [done|]. split.
  - intros k. rewrite !mask_of_lookup.
    destruct (atlas_data !! k) as [v|]; [|done]. simpl.
    destruct (isin v (RunAndQA.amyg_indices labels)) eqn:E; [|done]. intros _.
    apply isin_spec in E as (i & Hi & ->).
    assert (isin (Z.of_nat i) (GenerateFigures.amyg_indices labels) = true) as ->; [|done].
    apply isin_spec. exists i. split; [by apply Hsub | done].
  - intros Hno. unfold RunAndQA.amyg_indices, RunAndQA.matching_indices,
      GenerateFigures.amyg_indices, enumerate.
    f_equal. clear Hsub. generalize 0%nat.
    induction Hno as [|name l Hname _ IH]; intros k; [done|].
    simpl. rewrite Hname, andb_true_r. by rewrite IH.
Qed.

(** Stripping the labels does not change what figure 4 selects. *)
Lemma figure4_selection_strip (raw : list string) :
  GenerateFigures.amyg_indices (map PyStr.strip raw) = GenerateFigures.amyg_indices raw.
Proof.
  unfold GenerateFigures.amyg_indices, enumerate. generalize 0%nat.
  induction raw as [|lbl raw IH]; intros k; [done|].
  simpl. rewrite contains_strip by done.
  destruct (PyStr.contains "Amygdala" lbl); simpl; by rewrite IH.
Qed.

End TwoSelections.

(** X12. For an atlas vocabulary without blank entries, what
    [run_and_qa.py] selects (on the vocabulary it has cleaned) figure 4 of
    [03_generate_figures.py] selects too (on the vocabulary as it is); so
    the strict mask lies within the mask of figure 4, voxel by voxel. When
    moreover no label contains "Extended" the two selections are the same
    list. *)
Theorem strict_selection_within_figure4_selection
    (raw : list string) (atlas_data : list Z)
    (Hraw : Forall (fun lbl => PyStr.strip lbl <> "") raw) :
  let strict := RunAndQA.amyg_indices (RunAndQA.clean_labels raw) in
  let loose := GenerateFigures.amyg_indices raw in
  (forall i, i ∈ strict -> i ∈ loose)
  /\ (forall k, mask_of atlas_data strict !! k = Some 1 ->
                mask_of atlas_data loose !! k = Some 1)
  /\ (Forall (fun name => PyStr.contains "Extended" name = false) raw ->
      strict = loose).
Proof.
  intros strict loose. subst strict loose.
  rewrite (clean_labels_no_blank raw Hraw), <- (figure4_selection_strip raw).
  destruct (strict_within_loose (map PyStr.strip raw) atlas_data) as (H1 & H2 & H3).
  split; [done|]. split; [done|].
  intros Hno. apply H3.
  apply Forall_forall. intros name Hname.
  apply list_elem_of_In, in_map_iff in Hname as (lbl & <- & Hlbl).
  rewrite contains_strip by done.
  rewrite Forall_forall in Hno. by apply Hno, list_elem_of_In.
Qed.

Lemma strict_selection_within_figure4_selection_witness :
  RunAndQA.amyg_indices
    (RunAndQA.clean_labels ["Background"; " Left Amygdala"; "Right Amygdala "])
  = GenerateFigures.amyg_indices ["Background"; " Left Amygdala"; "Right Amygdala "].
Proof.
  apply (strict_selection_within_figure4_selection
           ["Background"; " Left Amygdala"; "Right Amygdala "] []).
  - repeat constructor; by vm_compute.
  - repeat constructor.
Defined.

Section Stripping.

Lemma rstrip_cons (c : ascii) (s : string) :
  PyStr.rstrip (String c s) =
    match PyStr.rstrip s with
    | EmptyString => if PyStr.isspace c then EmptyString else String c EmptyString
    | r => String c r
    end.
Proof. done. Qed.

Lemma rstrip_rstrip (s : string) : PyStr.rstrip (PyStr.rstrip s) = PyStr.rstrip s.
Proof.
  induction s as [|c s IH]; [done|]. rewrite rstrip_cons.
  destruct (PyStr.rstrip s) as [|a r] eqn:E.
  - destruct (PyStr.isspace c) eqn:Hc; [done|]. simpl. by rewrite Hc.
  - by rewrite rstrip_cons, IH.
Qed.

Lemma lstrip_starts_solid (s : string) :
  PyStr.lstrip s = "" \/ starts_solid (PyStr.lstrip s) = true.
Proof.
  induction s as [|c s IH]; [by left|]. cbn [PyStr.lstrip].
  destruct (PyStr.isspace c) eqn:Hc; [done|]. right. simpl. by rewrite Hc.
Qed.

Lemma lstrip_rstrip_solid (t : string) :
  t = "" \/ starts_solid t = true ->
  PyStr.lstrip (PyStr.rstrip t) = PyStr.rstrip t.
Proof.
  intros [-> | Ht]; [done|]. destruct t as [|c t]; [done|]. simpl in Ht.
  apply negb_true_iff in Ht. rewrite rstrip_cons.
  destruct (PyStr.rstrip t); rewrite ?Ht; simpl; by rewrite Ht.
Qed.

(** Stripping a stripped text changes nothing. *)
Lemma strip_strip (s : string) : PyStr.strip (PyStr.strip s) = PyStr.strip s.
Proof.
  unfold PyStr.strip.
  rewrite lstrip_rstrip_solid by apply lstrip_starts_solid.
  apply rstrip_rstrip.
Qed.

End Stripping.

(** X13. Cleaning the labels is idempotent: the cleaned labels are never
    blank and carry no white space at either end, there are no more of
    them than labels in the atlas, and cleaning them again gives the same
    list. *)
Theorem cleaning_labels_is_idempotent (raw : list string) :
  RunAndQA.clean_labels (RunAndQA.clean_labels raw) = RunAndQA.clean_labels raw
  /\ Forall (fun name => name <> "" /\ PyStr.strip name = name) (RunAndQA.clean_labels raw)
  /\ (length (RunAndQA.clean_labels raw) <= length raw)%nat.
Proof.
  unfold RunAndQA.clean_labels.
  induction raw as [|lbl raw (IH1 & IH2 & IH3)]; [by repeat constructor|].
  simpl. destruct (PyStr.truthy (PyStr.strip lbl)) eqn:E; simpl.
  - rewrite strip_strip, E. simpl. rewrite strip_strip, IH1.
    split; [done|]. split; [|lia]. constructor; [|done].
    split; [|apply strip_strip]. intros H. by rewrite H in E.
  - split; [done|]. split; [done|]. lia.
Qed.

(** ** Figure 4 of [03_generate_figures.py] *)

Section Figure4Runs.

(** With a mask at [MASK_PATH] nothing is fetched or built. *)
Lemma figure4_cached_run (w : World) (f : file) :
  files w !! MASK_PATH = Some f ->
  GenerateFigures.figure4 w =
    match f with
    | NiftiFile m =>
        (Returned tt,
         printed [MsgSavedFig4] (written FIG4 (PngFile m) (printed [MsgGenerating] w)))
    | _ => (Returned tt, printed [MsgGenerating; MsgCouldNotGenerate ImageFileError] w)
    end.
Proof.
  intros H.
  unfold GenerateFigures.figure4, try_except, path_exists,
    GenerateFigures.plot_roi_and_save, nib_load.
  run_m. rewrite H. simpl. rewrite H.
  destruct f; run_m; unfold printed, written; simpl; by rewrite <- ?app_assoc.
Qed.

(** Without a mask at [MASK_PATH] the atlas is fetched and the mask built,
    or the handler reports why it was not. *)
Lemma figure4_build_run (w : World) :
  files w !! MASK_PATH = None ->
  GenerateFigures.figure4 w =
    match harvard_oxford w with
    | None => (Returned tt,
               printed [MsgGenerating; MsgDownloading; MsgCouldNotGenerate URLError] w)
    | Some ho =>
        match maps ho with
        | MapsImage _ =>
            (Returned tt,
             printed [MsgGenerating; MsgDownloading; MsgCouldNotGenerate TypeError] w)
        | MapsPath p =>
            match files w !! p with
            | None =>
                (Returned tt,
                 printed [MsgGenerating; MsgDownloading;
                          MsgCouldNotGenerate FileNotFoundError] w)
            | Some (NiftiFile img) =>
                if bool_decide (GenerateFigures.amyg_indices (labels ho) = [])
                then (Returned tt,
                      printed [MsgGenerating; MsgDownloading;
                               MsgCouldNotGenerate
                                 (ValueError "No amygdala labels found in atlas!")] w)
                else (Returned tt,
                      printed [MsgSavedFig4]
                        (written FIG4 (PngFile (figure4_mask ho img))
                           (written MASK_PATH (NiftiFile (figure4_mask ho img))
                              (printed [MsgGenerating; MsgDownloading] w))))
            | Some _ =>
                (Returned tt,
                 printed [MsgGenerating; MsgDownloading;
                          MsgCouldNotGenerate ImageFileError] w)
            end
        end
    end.
Proof.
  intros H.
  unfold GenerateFigures.figure4, try_except, path_exists, fetch_atlas_harvard_oxford,
    GenerateFigures.plot_roi_and_save, GenerateFigures.load, nib_load, nib_save.
  run_m. rewrite H. simpl.
  destruct (harvard_oxford w) as [ho|] eqn:Hho; run_m.
  2:{ unfold printed. by rewrite <- !app_assoc, Hho. }
  destruct (maps ho) as [p|img0]; run_m.
  2:{ unfold printed. by rewrite <- !app_assoc, Hho. }
  destruct (files w !! p) as [[t|img|o|]|]; run_m;
    try (unfold printed; by rewrite <- !app_assoc, Hho).
  case_bool_decide; run_m.
  - unfold printed. by rewrite <- !app_assoc, Hho.
  - rewrite lookup_insert_eq. unfold printed, written, figure4_mask. simpl.
    by rewrite <- !app_assoc, Hho.
Qed.

End Figure4Runs.


(** X15. A mask found at [MASK_PATH] is used as it is: the atlas is not
    fetched (its absence does not matter), the mask file is not touched,
    and the figure is drawn from it, whatever atlas it came from. *)
Theorem figure4_reuses_the_cached_mask
    (w : World) (m : NiftiImage)
    (Hcached : files w !! MASK_PATH = Some (NiftiFile m)) :
  GenerateFigures.figure4 w =
    (Returned tt,
     printed [MsgSavedFig4] (written FIG4 (PngFile m) (printed [MsgGenerating] w))).
Proof. by rewrite (figure4_cached_run w _ Hcached). Qed.

Lemma figure4_reuses_the_cached_mask_witness :
  let w := {| files := {[ MASK_PATH := NiftiFile sample_volume ]};
              writes := []; stdout := [];
              HAVE_NILEARN := true; harvard_oxford := None |} in
  GenerateFigures.figure4 w =
    (Returned tt,
     printed [MsgSavedFig4]
       (written FIG4 (PngFile sample_volume) (printed [MsgGenerating] w))).
Proof. intros w. by apply figure4_reuses_the_cached_mask. Defined.

(** X16. Figure 4 builds the mask once. Without a mask on disk, with the
    atlas and its label volume at hand and a label naming the amygdala, the
    first run writes the mask and the figure; a second run writes the
    figure only and leaves the mask of the first. *)
Theorem figure4_builds_the_mask_once
    (w : World) (ho : Atlas) (p : string) (img : NiftiImage)
    (Hnone : files w !! MASK_PATH = None)
    (Hfetch : harvard_oxford w = Some ho)
    (Hmaps : maps ho = MapsPath p)
    (Himg : files w !! p = Some (NiftiFile img))
    (Hidx : GenerateFigures.amyg_indices (labels ho) <> []) :
  let mask := figure4_mask ho img in
  let w1 := (GenerateFigures.figure4 w).2 in
  let w2 := (GenerateFigures.figure4 w1).2 in
  files w1 !! MASK_PATH = Some (NiftiFile mask)
  /\ files w1 !! FIG4 = Some (PngFile mask)
  /\ writes w1 = (writes w ++ [MASK_PATH; FIG4])%list
  /\ files w2 = files w1
  /\ writes w2 = (writes w1 ++ [FIG4])%list
  /\ stdout w2 = (stdout w1 ++ [MsgGenerating; MsgSavedFig4])%list.
Proof.
  intros mask w1 w2. subst w2 w1.
  rewrite (figure4_build_run w Hnone), Hfetch, Hmaps, Himg.
  rewrite bool_decide_eq_false_2 by done. simpl.
  assert (forall fs : gmap string file,
             <[FIG4 := PngFile mask]> (<[MASK_PATH := NiftiFile mask]> fs) !! MASK_PATH
             = Some (NiftiFile mask)) as Hm.
  { intros fs. rewrite lookup_insert_ne by done. apply lookup_insert_eq. }
  split; [apply Hm|]. split; [apply lookup_insert_eq|].
  split; [by rewrite <- app_assoc|].
  erewrite figure4_cached_run by apply Hm. simpl.
  split; [|split; [done | by rewrite <- !app_assoc]].
  by rewrite insert_insert_eq.
Qed.

Lemma figure4_builds_the_mask_once_witness :
  let w := sample_world sample_vocabulary in
  let mask := Nifti1Image [1; 1; 1; 0] sample_volume in
  let w1 := (GenerateFigures.figure4 w).2 in
  let w2 := (GenerateFigures.figure4 w1).2 in
  files w1 !! MASK_PATH = Some (NiftiFile mask)
  /\ files w1 !! FIG4 = Some (PngFile mask)
  /\ writes w1 = (writes w ++ [MASK_PATH; FIG4])%list
  /\ files w2 = files w1
  /\ writes w2 = (writes w1 ++ [FIG4])%list
  /\ stdout w2 = (stdout w1 ++ [MsgGenerating; MsgSavedFig4])%list.
Proof.
  apply (figure4_builds_the_mask_once (sample_world sample_vocabulary)
           {| labels := sample_vocabulary; maps := MapsPath sample_atlas_path |}
           sample_atlas_path sample_volume); try reflexivity.
  vm_compute. discriminate.
Defined.

(** X17. The overlay fix does not use the cache: run after figure 4 has
    built its mask, it replaces that mask by the strict one (labels with
    "Extended" left out) and redraws the figure from it. *)
Theorem overlay_fix_replaces_figure4_mask
    (w : World) (ho : Atlas) (p : string) (img : NiftiImage)
    (Hlib : HAVE_NILEARN w = true)
    (Hnone : files w !! MASK_PATH = None)
    (Hfetch : harvard_oxford w = Some ho)
    (Hmaps : maps ho = MapsPath p)
    (Hp : p <> MASK_PATH /\ p <> FIG4)
    (Himg : files w !! p = Some (NiftiFile img))
    (Hidx : RunAndQA.amyg_indices (RunAndQA.clean_labels (labels ho)) <> [])
    (Hloose : GenerateFigures.amyg_indices (labels ho) <> [])
    (Hdata : dataobj img <> []) :
  let w1 := (GenerateFigures.figure4 w).2 in
  let w2 := (RunAndQA.fix_overlay_mask_and_render w1).2 in
  files w1 !! MASK_PATH = Some (NiftiFile (figure4_mask ho img))
  /\ (RunAndQA.fix_overlay_mask_and_render w1).1 = Returned tt
  /\ files w2 !! MASK_PATH = Some (NiftiFile (amygdala_mask ho img))
  /\ files w2 !! FIG4 = Some (PngFile (amygdala_mask ho img))
  /\ writes w2 = (writes w ++ [MASK_PATH; FIG4; MASK_PATH; FIG4])%list.
Proof.
  destruct Hp as [Hp1 Hp2]. intros w1 w2. subst w2 w1.
  rewrite (figure4_build_run w Hnone), Hfetch, Hmaps, Himg.
  rewrite bool_decide_eq_false_2 by done. simpl.
  split; [rewrite lookup_insert_ne by done; apply lookup_insert_eq|].
  erewrite (fix_overlay_run _ ho img); [|done|done|].
  2:{ unfold atlas_image. rewrite Hmaps. simpl.
      by rewrite !lookup_insert_ne, Himg by done. }
  rewrite !bool_decide_eq_false_2 by done. simpl.
  split; [done|].
  split; [rewrite lookup_insert_ne by done; apply lookup_insert_eq|].
  split; [apply lookup_insert_eq|]. by rewrite <- !app_assoc.
Qed.

Lemma overlay_fix_replaces_figure4_mask_witness :
  let w := sample_world sample_vocabulary in
  let w1 := (GenerateFigures.figure4 w).2 in
  let w2 := (RunAndQA.fix_overlay_mask_and_render w1).2 in
  let ho := {| labels := sample_vocabulary; maps := MapsPath sample_atlas_path |} in
  files w1 !! MASK_PATH = Some (NiftiFile (figure4_mask ho sample_volume))
  /\ (RunAndQA.fix_overlay_mask_and_render w1).1 = Returned tt
  /\ files w2 !! MASK_PATH = Some (NiftiFile (amygdala_mask ho sample_volume))
  /\ files w2 !! FIG4 = Some (PngFile (amygdala_mask ho sample_volume))
  /\ writes w2 = (writes w ++ [MASK_PATH; FIG4; MASK_PATH; FIG4])%list.
Proof.
  apply (overlay_fix_replaces_figure4_mask (sample_world sample_vocabulary)
           {| labels := sample_vocabulary; maps := MapsPath sample_atlas_path |}
           sample_atlas_path sample_volume); try reflexivity;
    try (vm_compute; discriminate).
  split; vm_compute; discriminate.
Defined.

(** ** The ROI table in [03_generate_figures.py] *)

Section FiguresDataRuns.

(** Reading the table and deriving the column, on a file that parses. *)
Lemma load_roi_run (s : Session) (t : DataFrame) :
  files (world s) !! ROI_CSV = Some (CsvFile t) ->
  let s1 := {| world := world s;
               console := console s ++ [LineLoaded (n_rows t) ROI_CSV] |} in
  FiguresData.load_roi s =
    if has_column "Asymmetry" t then (Finished t, s1)
    else match assign_asymmetry t with
         | Returned df => (Finished df, s1)
         | SystemExit m => (Exited (StageExit m), s1)
         | Raised e => (Uncaught e, s1)
         end.
Proof.
  intros Hfile s1. subst s1.
  unfold FiguresData.load_roi, stage, read_csv, say, moved_to.
  unfold mbind, Script_bind, M_bind, get, mret, M_ret, Script_ret, lift_outcome. simpl.
  rewrite Hfile. simpl. rewrite drop_all, !app_nil_r. simpl.
  destruct (has_column "Asymmetry" t); simpl; [done|].
  rewrite drop_all, app_nil_r. by destruct (assign_asymmetry t).
Qed.

End FiguresDataRuns.

(** X18. The figures script draws from the table the validator returns:
    on a file that validates, [load_roi] ends with the very table
    [validate_roi_csv] returns there (when the file lacks the asymmetry
    column, the column the script derives in memory is the column the
    repair derives). *)
Theorem figures_use_the_validated_table
    (w w' : World) (df : DataFrame) (seen : list line)
    (Hrun : RunAndQA.validate_roi_csv ROI_CSV w = (Returned df, w')) :
  (FiguresData.load_roi {| world := w; console := seen |}).1 = Finished df.
Proof.
  destruct (validate_roi_csv_returned _ _ _ _ Hrun) as [t Hfile].
  destruct (validate_roi_csv_returned_table _ _ _ _ _ Hfile Hrun)
    as (_ & _ & _ & Hdf).
  rewrite (load_roi_run _ t) by done.
  destruct (has_column "Asymmetry" t); [by subst|]. by rewrite Hdf.
Qed.

Lemma figures_use_the_validated_table_witness :
  let w := roi_world roi_without_asymmetry in
  let v := RunAndQA.validate_roi_csv ROI_CSV w in
  exists df,
    v.1 = Returned df
    /\ (FiguresData.load_roi {| world := w; console := [] |}).1 = Finished df.
Proof.
  intros w v.
  set (df := match v.1 with Returned d => d | _ => [] end).
  assert (RunAndQA.validate_roi_csv ROI_CSV w = (Returned df, v.2)) as Hv
    by (vm_compute; reflexivity).
  exists df. split; [vm_compute; reflexivity|].
  exact (figures_use_the_validated_table w v.2 df [] Hv).
Defined.

(** X19. The figures script has no schema check of its own and never
    writes the table. With the asymmetry column in the file the table is
    taken as it is, whatever else it lacks; without it, a missing hemisphere
    column surfaces as an uncaught [KeyError] of the derivation. In every
    case the files and the write log are left as they were. *)
Theorem figures_script_has_no_schema_check (s : Session) (t : DataFrame)
    (Hfile : files (world s) !! ROI_CSV = Some (CsvFile t)) :
  (has_column "Asymmetry" t = true -> (FiguresData.load_roi s).1 = Finished t)
  /\ (has_column "Asymmetry" t = false ->
      has_column "Amygdala_L" t = false \/ has_column "Amygdala_R" t = false ->
      (FiguresData.load_roi s).1 = Uncaught KeyError)
  /\ world (FiguresData.load_roi s).2 = world s.
Proof.
  rewrite (load_roi_run s t Hfile). split; [|split].
  - by intros ->.
  - intros -> H.
    assert (assign_asymmetry t = Raised KeyError) as ->; [|done].
    unfold assign_asymmetry, column.
    destruct (getitem t "Amygdala_R") as [r|] eqn:ER; [|done].
    destruct H as [H|H]; apply has_column_false_getitem in H; [|congruence].
    by rewrite H.
  - destruct (has_column "Asymmetry" t); [done|]. by destruct (assign_asymmetry t).
Qed.

Lemma figures_script_has_no_schema_check_witness :
  let s := {| world := roi_world roi_missing_right; console := [] |} in
  (FiguresData.load_roi s).1 = Uncaught KeyError
  /\ world (FiguresData.load_roi s).2 = world s.
Proof.
  intros s.
  destruct (figures_script_has_no_schema_check s roi_missing_right eq_refl)
    as (_ & H & Hw).
  split; [|done]. apply H; [reflexivity | by right].
Defined.

(** ** More on the column normalisation *)

Section TraitResolution.

Lemma mem_map_fixed (g : string -> string) (x : string) (names : list string) :
  (forall n, g n = x <-> n = x) ->
  PyStr.mem x (map g names) = PyStr.mem x names.
Proof.
  intros Hg. unfold PyStr.mem. induction names as [|n names IH]; [done|].
  simpl. rewrite IH. f_equal.
  destruct (Hg n) as [H1 H2].
  destruct (String.eqb_spec x (g n)) as [E|E], (String.eqb_spec x n) as [E'|E'];
    try done.
  - destruct E'. symmetry. by apply H1.
  - destruct E. symmetry. by apply H2.
Qed.

(** The subject step renames nothing to or from a name that is neither
    "subject" nor one of its candidates. *)
Lemma subject_step_fixes (names : list string) (x : string) :
  x <> "subject" -> ~ In x subject_candidates ->
  forall n, step_name "subject" subject_candidates names n = x <-> n = x.
Proof.
  intros Hx Hnot n. split.
  - unfold step_name.
    destruct (first_match "subject" subject_candidates names) as [c|]; [|done].
    simpl. destruct (String.eqb n c); [by intros <- | done].
  - intros ->. by apply step_name_other.
Qed.

Lemma first_match_ext (canonical : string) (candidates names names' : list string) :
  PyStr.mem canonical names' = PyStr.mem canonical names ->
  Forall (fun c => PyStr.mem c names' = PyStr.mem c names) candidates ->
  first_match canonical candidates names' = first_match canonical candidates names.
Proof.
  intros Hc H. unfold first_match. rewrite Hc.
  destruct (PyStr.mem canonical names); [done|].
  induction H as [|c cs E _ IH]; [done|]. simpl. by rewrite E, IH.
Qed.

(** The trait step sees the names as they were before the subject step. *)
Lemma trait_match_after_subject_step (names : list string) :
  first_match "stai_t" trait_candidates
    (map (step_name "subject" subject_candidates names) names)
  = first_match "stai_t" trait_candidates names.
Proof.
  apply first_match_ext.
  - apply mem_map_fixed, subject_step_fixes; [done|].
    unfold subject_candidates. simpl. by intros [|[|[|[|]]]].
  - unfold trait_candidates.
    repeat constructor; apply mem_map_fixed, subject_step_fixes; try done;
      unfold subject_candidates; simpl; by intros [|[|[|[|]]]].
Qed.

End TraitResolution.



(** X21. A column already named "subject" once labels are stripped and
    lower-cased takes precedence over the candidates: columns labelled with
    a subject candidate then keep their normalised label. The same holds for
    "stai_t" and the trait candidates. *)
Theorem canonical_column_blocks_candidates
    (st : ComputeAsymmetry.Interp) (df : DataFrame)
    (Hbound : ComputeAsymmetry.heap st !! ComputeAsymmetry.anx_df st = Some df) :
  let names := map normalized (columns df) in
  exists st' out,
    ComputeAsymmetry.normalize_anxiety_columns st = (Returned tt, st')
    /\ ComputeAsymmetry.heap st' !! ComputeAsymmetry.anx_df st' = Some out
    /\ (PyStr.mem "subject" names = true ->
        forall (i : nat) (raw : string) (s : Series),
          df !! i = Some (raw, s) -> In (normalized raw) subject_candidates ->
          out !! i = Some (normalized raw, s))
    /\ (PyStr.mem "stai_t" names = true ->
        forall (i : nat) (raw : string) (s : Series),
          df !! i = Some (raw, s) -> In (normalized raw) trait_candidates ->
          out !! i = Some (normalized raw, s)).
Proof.
  intros names.
  destruct (normalize_anxiety_columns_run st df Hbound) as (st' & Hrun & Hout & _).
  exists st', (normalized_table df). split; [done|]. split; [done|].
  rewrite normalized_table_relabel. fold names.
  set (g1 := step_name "subject" subject_candidates names).
  set (g2 := step_name "stai_t" trait_candidates (map g1 names)).
  split.
  - intros Hsub i raw s Hi Hcand.
    erewrite relabel_lookup by done. do 2 f_equal.
    assert (g1 (normalized raw) = normalized raw) as ->.
    { unfold g1, step_name, first_match. by rewrite Hsub. }
    revert Hcand. unfold subject_candidates. simpl.
    intros [<-|[<-|[<-|[<-|[]]]]]; unfold g2; by rewrite step_name_other
      by (unfold trait_candidates; simpl; by intros [|[|[|]]]).
  - intros Htrait i raw s Hi Hcand.
    erewrite relabel_lookup by done. do 2 f_equal.
    assert (g1 (normalized raw) = normalized raw) as ->.
    { apply step_name_other. revert Hcand.
      unfold trait_candidates, subject_candidates. simpl.
      intros [<-|[<-|[<-|[]]]]; by intros [|[|[|[|]]]]. }
    assert (g2 (normalized raw) = normalized raw) as ->.
    { unfold g2, step_name, g1. rewrite trait_match_after_subject_step.
      unfold first_match. by rewrite Htrait. }
    revert Hcand. unfold trait_candidates. simpl.
    by intros [<-|[<-|[<-|[]]]].
Qed.

Lemma canonical_column_blocks_candidates_witness :
  let df := [("Subject", Object ["sub-0006"]); ("ID", Float64 [F64.of_Z 7])] in
  exists st' out,
    ComputeAsymmetry.normalize_anxiety_columns (loaded df) = (Returned tt, st')
    /\ ComputeAsymmetry.heap st' !! ComputeAsymmetry.anx_df st' = Some out
    /\ out !! 1%nat = Some ("id", Float64 [F64.of_Z 7]).
Proof.
  intros df.
  destruct (canonical_column_blocks_candidates (loaded df) df eq_refl)
    as (st' & out & Hrun & Hout & Hsub & _).
  exists st', out. split; [done|]. split; [done|].
  apply (Hsub eq_refl 1%nat "ID"); [done|].
  vm_compute. tauto.
Defined.

(** ** The frames of the normalisation *)

Section NormalizerFrames.

Import ComputeAsymmetry.

Lemma resolve_frames (canonical : string) (candidates : list string)
    (st : Interp) (df : DataFrame) :
  heap st !! anx_df st = Some df ->
  exists st',
    resolve canonical candidates st = (Returned tt, st')
    /\ is_Some (heap st' !! anx_df st')
    /\ (forall r, is_Some (heap st !! r) -> heap st' !! r = heap st !! r)
    /\ (size (heap st') <= S (size (heap st)))%nat
    /\ (anx_df st' = anx_df st \/ heap st !! anx_df st' = None).
Proof.
  intros H. eexists. split; [by apply resolve_run|].
  destruct (first_match canonical candidates (columns df)) as [c|].
  - unfold rebound. simpl.
    assert (heap st !! fresh (dom (heap st)) = None) as Hfresh
      by (apply not_elem_of_dom, is_fresh).
    split; [by rewrite lookup_insert_eq|]. split.
    + intros r Hr. rewrite lookup_insert_ne; [done|]. by apply fresh_ref_ne.
    + split; [by rewrite map_size_insert_None | by right].
  - split; [by rewrite H|]. split; [done|]. split; [lia | by left].
Qed.

End NormalizerFrames.

(** X22. The normalisation works on the frame the variable is bound to and
    on frames it allocates itself: every other frame of the heap is left as
    it was, at most two frames are allocated, and the variable ends bound
    either to the frame it started with or to a frame that did not exist
    before. *)
Theorem normalisation_leaves_other_frames
    (st : ComputeAsymmetry.Interp) (df : DataFrame)
    (Hbound : ComputeAsymmetry.heap st !! ComputeAsymmetry.anx_df st = Some df) :
  exists st',
    ComputeAsymmetry.normalize_anxiety_columns st = (Returned tt, st')
    /\ (forall r, r <> ComputeAsymmetry.anx_df st ->
          is_Some (ComputeAsymmetry.heap st !! r) ->
          ComputeAsymmetry.heap st' !! r = ComputeAsymmetry.heap st !! r)
    /\ (size (ComputeAsymmetry.heap st') <= size (ComputeAsymmetry.heap st) + 2)%nat
    /\ (ComputeAsymmetry.anx_df st' = ComputeAsymmetry.anx_df st
        \/ ComputeAsymmetry.heap st !! ComputeAsymmetry.anx_df st' = None).
Proof.
  unfold ComputeAsymmetry.normalize_anxiety_columns.
  erewrite bind_step; [|reflexivity].
  erewrite bind_step;
    [|by unfold ComputeAsymmetry.deref; run_m; rewrite Hbound].
  erewrite bind_step; [|by apply set_columns_run].
  set (st1 := {| ComputeAsymmetry.heap := _; ComputeAsymmetry.anx_df := _ |}).
  assert (is_Some (ComputeAsymmetry.heap st1 !! ComputeAsymmetry.anx_df st1)) as [df1 H1]
    by (eexists; apply lookup_insert_eq).
  assert (forall r, is_Some (ComputeAsymmetry.heap st !! r) ->
            is_Some (ComputeAsymmetry.heap st1 !! r)) as Hdom1.
  { intros r Hr. unfold st1. simpl.
    destruct (decide (ComputeAsymmetry.anx_df st = r)) as [<-|Hne].
    - rewrite lookup_insert_eq. by eexists.
    - by rewrite lookup_insert_ne. }
  assert (size (ComputeAsymmetry.heap st1) = size (ComputeAsymmetry.heap st)) as Hsize1.
  { unfold st1. simpl. apply map_size_insert_Some. by eexists. }
  destruct (resolve_frames "subject" ["sub"; "participant"; "id"; "participant_id"] st1 _ H1)
    as (st2 & Hrun2 & [df2 H2] & Hold2 & Hsize2 & Hvar2).
  erewrite bind_step; [|exact Hrun2].
  destruct (resolve_frames "stai_t" ["trait_anxiety"; "anxiety"; "score"] st2 _ H2)
    as (st3 & Hrun3 & [df3 H3] & Hold3 & Hsize3 & Hvar3).
  erewrite bind_step; [|exact Hrun3].
  erewrite bind_step; [|reflexivity].
  unfold ComputeAsymmetry.rename_inplace.
  erewrite bind_step;
    [|by unfold ComputeAsymmetry.deref; run_m; rewrite H3].
  unfold ComputeAsymmetry.store, modify. eexists. split; [reflexivity|]. simpl.
  assert (forall r, is_Some (ComputeAsymmetry.heap st !! r) ->
            ComputeAsymmetry.anx_df st3 = r -> r = ComputeAsymmetry.anx_df st) as Hvar.
  { intros r Hr <-. apply Hdom1 in Hr.
    assert (is_Some (ComputeAsymmetry.heap st2 !! ComputeAsymmetry.anx_df st3)) as Hr2
      by (by rewrite Hold2).
    destruct Hvar3 as [E3 | E3]; [|rewrite E3 in Hr2; by destruct Hr2].
    rewrite E3 in *.
    destruct Hvar2 as [E2 | E2]; [|rewrite E2 in Hr; by destruct Hr].
    by rewrite E2. }
  split; [|split].
  - intros r Hne Hr.
    rewrite lookup_insert_ne by (intros E; by apply Hne, Hvar).
    rewrite Hold3, Hold2 by (try rewrite Hold2; by apply Hdom1).
    unfold st1. simpl. by rewrite lookup_insert_ne.
  - rewrite map_size_insert_Some by (by eexists). lia.
  - destruct (ComputeAsymmetry.heap st !! ComputeAsymmetry.anx_df st3) eqn:E; [|by right].
    left. apply Hvar; [by eexists | done].
Qed.

Lemma normalisation_leaves_other_frames_witness :
  let st := {| ComputeAsymmetry.heap := {[ 0%nat := anxiety_table; 1%nat := roi_no_rows ]};
               ComputeAsymmetry.anx_df := 0%nat |} in
  exists st',
    ComputeAsymmetry.normalize_anxiety_columns st = (Returned tt, st')
    /\ ComputeAsymmetry.heap st' !! 1%nat = Some roi_no_rows
    /\ (size (ComputeAsymmetry.heap st') <= 4)%nat.
Proof.
  intros st.
  destruct (normalisation_leaves_other_frames st anxiety_table eq_refl)
    as (st' & Hrun & Hother & Hsize & _).
  exists st'. split; [done|]. split.
  - rewrite Hother; [done | done | by eexists].
  - exact Hsize.
Defined.

(** ** Normalising twice *)

Section NormalizeTwice.

Lemma isspace_lower_char (c : ascii) :
  PyStr.isspace (PyStr.lower_char c) = PyStr.isspace c.
Proof. destruct c as [[] [] [] [] [] [] [] []]; reflexivity. Qed.

Lemma lower_char_lower_char (c : ascii) :
  PyStr.lower_char (PyStr.lower_char c) = PyStr.lower_char c.
Proof. destruct c as [[] [] [] [] [] [] [] []]; reflexivity. Qed.

Lemma lower_lower (s : string) : PyStr.lower (PyStr.lower s) = PyStr.lower s.
Proof.
  induction s as [|c s IH]; [done|]. simpl. by rewrite lower_char_lower_char, IH.
Qed.

Lemma lstrip_lower (s : string) :
  PyStr.lstrip (PyStr.lower s) = PyStr.lower (PyStr.lstrip s).
Proof.
  induction s as [|c s IH]; [done|]. simpl. rewrite isspace_lower_char.
  by destruct (PyStr.isspace c).
Qed.

Lemma rstrip_lower (s : string) :
  PyStr.rstrip (PyStr.lower s) = PyStr.lower (PyStr.rstrip s).
Proof.
  induction s as [|c s IH]; [done|].
  cbn [PyStr.lower]. rewrite !rstrip_cons, IH.
  destruct (PyStr.rstrip s) as [|a r]; [|done]. simpl.
  rewrite isspace_lower_char. by destruct (PyStr.isspace c).
Qed.

Lemma normalized_normalized (label : string) :
  normalized (normalized label) = normalized label.
Proof.
  assert (forall s, PyStr.strip (PyStr.lower s) = PyStr.lower (PyStr.strip s)) as E.
  { intros s. unfold PyStr.strip. by rewrite lstrip_lower, rstrip_lower. }
  unfold normalized. by rewrite E, lower_lower, strip_strip.
Qed.

Lemma step_name_ext (canonical : string) (candidates names names' : list string)
    (label : string) :
  first_match canonical candidates names' = first_match canonical candidates names ->
  step_name canonical candidates names' label = step_name canonical candidates names label.
Proof. intros H. unfold step_name. by rewrite H. Qed.

Lemma normalized_table_final (df : DataFrame) :
  normalized_table df
  = relabel (fun c => final_name (map normalized (columns df)) (normalized c)) df.
Proof.
  rewrite normalized_table_relabel. unfold relabel. apply map_ext.
  intros [c s]. unfold final_name. do 2 f_equal.
  apply step_name_ext, trait_match_after_subject_step.
Qed.

Lemma step_name_cases (canonical : string) (candidates names : list string)
    (label : string) :
  step_name canonical candidates names label = label
  \/ step_name canonical candidates names label = canonical.
Proof.
  unfold step_name. destruct (first_match canonical candidates names); [|by left].
  simpl. destruct (String.eqb label s); [by right | by left].
Qed.

(** A final label is "Subject", "STAI_T", or the label it was given, which
    is then neither "subject" nor "stai_t". *)
Lemma final_name_cases (names : list string) (n : string) :
  final_name names n = "Subject"
  \/ final_name names n = "STAI_T"
  \/ (final_name names n = n /\ n <> "subject" /\ n <> "stai_t").
Proof.
  unfold final_name.
  set (x := step_name "subject" subject_candidates names n).
  set (y := step_name "stai_t" trait_candidates names x).
  unfold capitalized. simpl.
  destruct (String.eqb_spec y "subject") as [|Hy1]; [by left|].
  destruct (String.eqb_spec y "stai_t") as [|Hy2]; [by right; left|].
  right; right.
  destruct (step_name_cases "stai_t" trait_candidates names x) as [E|E];
    fold y in E; [|done].
  destruct (step_name_cases "subject" subject_candidates names n) as [E'|E'];
    fold x in E'; [|congruence].
  rewrite E, E'. split; [done|]. split; congruence.
Qed.

Lemma capitalized_normalized_final (names : list string) (n : string) :
  normalized n = n ->
  capitalized (normalized (final_name names n)) = final_name names n.
Proof.
  intros Hn.
  destruct (final_name_cases names n) as [-> | [-> | (-> & H1 & H2)]]; [done..|].
  rewrite Hn. unfold capitalized. simpl.
  destruct (String.eqb_spec n "subject"); [done|].
  by destruct (String.eqb_spec n "stai_t").
Qed.

Lemma mem_true_in (x : string) (xs : list string) :
  PyStr.mem x xs = true <-> In x xs.
Proof.
  unfold PyStr.mem. rewrite existsb_exists. split.
  - intros (y & Hin & E). apply String.eqb_eq in E. by subst.
  - intros Hin. exists x. by rewrite String.eqb_refl.
Qed.

Lemma first_match_none_inv (canonical : string) (candidates names : list string) :
  first_match canonical candidates names = None ->
  PyStr.mem canonical names = true
  \/ Forall (fun c => PyStr.mem c names = false) candidates.
Proof.
  unfold first_match. destruct (PyStr.mem canonical names); [by left|].
  intros H. right. apply Forall_forall. intros c Hc.
  apply list_elem_of_In in Hc.
  by apply (find_none _ _ H).
Qed.

Variable names : list string.
Hypothesis names_normalized : Forall (fun n => normalized n = n) names.

Let names' : list string := map (fun n => normalized (final_name names n)) names.

(** A name of the second pass that is neither "subject" nor "stai_t" was a
    name of the first. *)
Lemma second_pass_name_was_there (k : string) :
  k <> "subject" -> k <> "stai_t" ->
  PyStr.mem k names' = true -> PyStr.mem k names = true.
Proof.
  intros H1 H2 Hk. apply mem_true_in in Hk. apply mem_true_in.
  apply in_map_iff in Hk as (n & Hn & Hin).
  assert (normalized n = n) as Hnorm.
  { pose proof names_normalized as Hall. rewrite Forall_forall in Hall.
    by apply Hall, list_elem_of_In. }
  destruct (final_name_cases names n) as [E | [E | (E & _)]]; rewrite E in Hn.
  - by destruct H1.
  - by destruct H2.
  - rewrite Hnorm in Hn. by subst.
Qed.

Lemma subject_survives :
  PyStr.mem "subject" names = true
  \/ (exists k, first_match "subject" subject_candidates names = Some k) ->
  PyStr.mem "subject" names' = true.
Proof.
  intros H. apply mem_true_in, in_map_iff.
  destruct H as [H | (k & H)].
  - exists "subject". split; [|by apply mem_true_in].
    unfold final_name.
    rewrite (step_name_other "subject")
      by (unfold subject_candidates; simpl; by intros [|[|[|[|]]]]).
    by rewrite (step_name_other "stai_t")
      by (unfold trait_candidates; simpl; by intros [|[|[|]]]).
  - exists k. pose proof (first_match_in _ _ _ _ H) as (_ & Hin & _).
    split; [|by apply mem_true_in].
    unfold final_name. unfold step_name at 2. rewrite H. simpl.
    rewrite String.eqb_refl.
    by rewrite step_name_other
      by (unfold trait_candidates; simpl; by intros [|[|[|]]]).
Qed.

Lemma trait_survives :
  PyStr.mem "stai_t" names = true
  \/ (exists k, first_match "stai_t" trait_candidates names = Some k) ->
  PyStr.mem "stai_t" names' = true.
Proof.
  intros H. apply mem_true_in, in_map_iff.
  destruct H as [H | (k & H)].
  - exists "stai_t". split; [|by apply mem_true_in].
    unfold final_name.
    rewrite (step_name_other "subject")
      by (unfold subject_candidates; simpl; by intros [|[|[|[|]]]]).
    by rewrite (step_name_other "stai_t")
      by (unfold trait_candidates; simpl; by intros [|[|[|]]]).
  - exists k. pose proof (first_match_in _ _ _ _ H) as (Hcand & Hin & _).
    split; [|by apply mem_true_in].
    unfold final_name.
    rewrite (step_name_other "subject").
    + unfold step_name. rewrite H. simpl. by rewrite String.eqb_refl.
    + revert Hcand. unfold trait_candidates, subject_candidates. simpl.
      intros [<-|[<-|[<-|[]]]]; by intros [|[|[|[|]]]].
Qed.

Lemma second_pass_renames_nothing (canonical : string) (candidates : list string) :
  Forall (fun k => k <> "subject" /\ k <> "stai_t") candidates ->
  (PyStr.mem canonical names = true
   \/ (exists k, first_match canonical candidates names = Some k) ->
   PyStr.mem canonical names' = true) ->
  first_match canonical candidates names' = None.
Proof.
  intros Hcands Hsurvives.
  destruct (first_match canonical candidates names) as [k|] eqn:E.
  - unfold first_match. rewrite Hsurvives; [done|]. right. by exists k.
  - apply first_match_none_inv in E as [E | E].
    + unfold first_match. rewrite Hsurvives; [done | by left].
    + apply first_match_none.
      rewrite Forall_forall. rewrite Forall_forall in Hcands.
      rewrite Forall_forall in E. intros k Hk.
      destruct (Hcands k Hk) as [H1 H2]. specialize (E k Hk). simpl in E.
      destruct (PyStr.mem k names') eqn:Hmem; [|done].
      apply second_pass_name_was_there in Hmem; congruence.
Qed.

Lemma final_name_second_pass (n : string) :
  In n names ->
  final_name names' (normalized (final_name names n)) = final_name names n.
Proof.
  intros Hin.
  assert (normalized n = n) as Hnorm.
  { pose proof names_normalized as Hall. rewrite Forall_forall in Hall.
    by apply Hall, list_elem_of_In. }
  unfold final_name at 1. unfold step_name.
  rewrite (second_pass_renames_nothing "subject" subject_candidates);
    [|unfold subject_candidates; by repeat constructor | apply subject_survives].
  rewrite (second_pass_renames_nothing "stai_t" trait_candidates);
    [|unfold trait_candidates; by repeat constructor | apply trait_survives].
  by apply capitalized_normalized_final.
Qed.

End NormalizeTwice.

Lemma normalized_table_idempotent (df : DataFrame) :
  normalized_table (normalized_table df) = normalized_table df.
Proof.
  rewrite (normalized_table_final (normalized_table df)).
  rewrite (normalized_table_final df).
  rewrite columns_relabel, relabel_relabel.
  unfold relabel. apply map_ext_in. intros [c s] Hin. f_equal.
  rewrite map_map, <- (map_map normalized (fun n => normalized (final_name _ n))).
  apply final_name_second_pass.
  - apply Forall_forall. intros n Hn. apply list_elem_of_In, in_map_iff in Hn as (x & <- & _).
    apply normalized_normalized.
  - apply in_map. unfold columns. by apply (in_map fst) in Hin.
Qed.

(** X23. Normalising the column names a second time changes nothing: run
    on a state where the variable is bound, the normalisation returns, and
    run again it returns with the variable bound to a table equal to the
    one the first run ended with. *)
Theorem normalising_twice_changes_nothing
    (st : ComputeAsymmetry.Interp) (df : DataFrame)
    (Hbound : ComputeAsymmetry.heap st !! ComputeAsymmetry.anx_df st = Some df) :
  exists st1 st2 out,
    ComputeAsymmetry.normalize_anxiety_columns st = (Returned tt, st1)
    /\ ComputeAsymmetry.normalize_anxiety_columns st1 = (Returned tt, st2)
    /\ ComputeAsymmetry.heap st1 !! ComputeAsymmetry.anx_df st1 = Some out
    /\ ComputeAsymmetry.heap st2 !! ComputeAsymmetry.anx_df st2 = Some out.
Proof.
  destruct (normalize_anxiety_columns_run st df Hbound) as (st1 & Hrun1 & Hout1 & _).
  destruct (normalize_anxiety_columns_run st1 _ Hout1) as (st2 & Hrun2 & Hout2 & _).
  exists st1, st2, (normalized_table df).
  by rewrite <- (normalized_table_idempotent df) at 2.
Qed.

Lemma normalising_twice_changes_nothing_witness :
  exists st1 st2 out,
    ComputeAsymmetry.normalize_anxiety_columns (loaded anxiety_table) = (Returned tt, st1)
    /\ ComputeAsymmetry.normalize_anxiety_columns st1 = (Returned tt, st2)
    /\ ComputeAsymmetry.heap st1 !! ComputeAsymmetry.anx_df st1 = Some out
    /\ ComputeAsymmetry.heap st2 !! ComputeAsymmetry.anx_df st2 = Some out.
Proof.
  exact (normalising_twice_changes_nothing (loaded anxiety_table) anxiety_table eq_refl).
Defined.

(** ** Missing hemisphere values *)

Section MissingValues.

Lemma asymmetry_index_nan (r l : F64.float) :
  F64.is_nan r = true \/ F64.is_nan l = true ->
  asymmetry_index r l = F64.nan.
Proof.
  unfold asymmetry_index, F64.div, F64.sub, F64.add, F64.nan.
  intros [H | H].
  - destruct r; try done; by destruct l.
  - destruct l; try done; by destruct r.
Qed.

Lemma assigned_cell (df df' : DataFrame) (row : nat) (r l : F64.float) :
  assign_asymmetry df = Returned df' ->
  cell df "Amygdala_R" row = Some r ->
  cell df "Amygdala_L" row = Some l ->
  cell df' "Asymmetry" row = Some (asymmetry_index r l).
Proof.
  intros Hassign Hr Hl.
  apply cell_float64 in Hr as (rs & Hrs & Hr).
  apply cell_float64 in Hl as (ls & Hls & Hl).
  apply assign_asymmetry_returned in Hassign as (r0 & l0 & a & Hr0 & Hl0 & Ha & ->).
  rewrite Hrs in Hr0. rewrite Hls in Hl0.
  injection Hr0 as <-. injection Hl0 as <-.
  rewrite asymmetry_float64 in Ha. injection Ha as <-.
  unfold cell. rewrite getitem_setitem.
  rewrite lookup_zip_with, Hr. simpl. by rewrite Hl.
Qed.

End MissingValues.

(** X24. A row with a missing hemisphere value (NaN on either side) gets a
    missing asymmetry: the derived cell is NaN, whatever the other value is,
    and the row is neither dropped nor rejected. *)
Theorem missing_hemisphere_value_gives_missing_asymmetry
    (df df' : DataFrame) (row : nat) (r l : F64.float)
    (Hassign : assign_asymmetry df = Returned df')
    (Hr : cell df "Amygdala_R" row = Some r)
    (Hl : cell df "Amygdala_L" row = Some l)
    (Hmissing : F64.is_nan r = true \/ F64.is_nan l = true) :
  cell df' "Asymmetry" row = Some F64.nan
  /\ cell df' "Amygdala_R" row = Some r
  /\ cell df' "Amygdala_L" row = Some l.
Proof.
  split.
  - rewrite (assigned_cell df df' row r l) by done.
    by rewrite asymmetry_index_nan.
  - apply assign_asymmetry_returned in Hassign as (r0 & l0 & a & _ & _ & _ & ->).
    unfold cell in *. by rewrite !getitem_setitem_ne.
Qed.

Lemma missing_hemisphere_value_gives_missing_asymmetry_witness :
  exists df',
    assign_asymmetry roi_missing_value = Returned df'
    /\ cell df' "Asymmetry" 0 = Some F64.nan
    /\ cell df' "Amygdala_R" 0 = Some (F64.of_Z 3)
    /\ cell df' "Amygdala_L" 0 = Some F64.nan.
Proof.
  eexists. split; [vm_compute; reflexivity|].
  apply (missing_hemisphere_value_gives_missing_asymmetry roi_missing_value);
    [vm_compute; reflexivity | done | done | by right].
Defined.

(** ** The controller *)

Section ControllerRuns.

(** One [run(cmd)]: the command is announced, started, and its return code
    decides. *)
Lemma run_run (sh : Shell) (cmd : string) (s : Session) :
  let s' := moved_to (sh cmd (world s)).2
              {| world := world s; console := (console s ++ [LineRun cmd])%list |} in
  Controller.run sh cmd s =
    if Z.eqb (sh cmd (world s)).1 0 then (Finished tt, s')
    else (Exited (FailedCommand cmd), s').
Proof.
  unfold Controller.run, Controller.subprocess_run, Controller.exit, say.
  unfold mbind, Script_bind, mret, Script_ret. simpl.
  destruct (sh cmd (world s)) as [c w']. simpl.
  by destruct (Z.eqb c 0).
Qed.

Lemma run_ok (sh : Shell) (cmd : string) (s : Session) :
  (sh cmd (world s)).1 = 0 ->
  Controller.run sh cmd s =
    (Finished tt,
     moved_to (sh cmd (world s)).2
       {| world := world s; console := (console s ++ [LineRun cmd])%list |}).
Proof. intros H. by rewrite run_run, H. Qed.

Lemma run_failed (sh : Shell) (cmd : string) (s : Session) :
  (sh cmd (world s)).1 <> 0 ->
  Controller.run sh cmd s =
    (Exited (FailedCommand cmd),
     moved_to (sh cmd (world s)).2
       {| world := world s; console := (console s ++ [LineRun cmd])%list |}).
Proof. intros H. rewrite run_run. by apply Z.eqb_neq in H as ->. Qed.

Lemma script_bind_finished {A B} (m : Script A) (f : A -> Script B)
    (s s' : Session) (a : A) :
  m s = (Finished a, s') -> (m ≫= f) s = f a s'.
Proof. intros H. unfold mbind, Script_bind. by rewrite H. Qed.

Lemma script_bind_exited {A B} (m : Script A) (f : A -> Script B)
    (s s' : Session) (r : exit_reason) :
  m s = (Exited r, s') -> (m ≫= f) s = (Exited r, s').
Proof. intros H. unfold mbind, Script_bind. by rewrite H. Qed.

Lemma script_bind_uncaught {A B} (m : Script A) (f : A -> Script B)
    (s s' : Session) (e : exn) :
  m s = (Uncaught e, s') -> (m ≫= f) s = (Uncaught e, s').
Proof. intros H. unfold mbind, Script_bind. by rewrite H. Qed.

(** The controller once its three scripts have succeeded. *)
Lemma main_after_scripts (sh : Shell) (s : Session) :
  let w1 := (sh script_01 (world s)).2 in
  let w2 := (sh script_02 w1).2 in
  let w3 := (sh script_03 w2).2 in
  (sh script_01 (world s)).1 = 0 ->
  (sh script_02 w1).1 = 0 ->
  (sh script_03 w2).1 = 0 ->
  exists new,
    Forall (fun l => progress_line l = true) new
    /\ Controller.main sh s =
      (df ← stage (RunAndQA.validate_roi_csv ROI_CSV);
       stage RunAndQA.fix_overlay_mask_and_render;;
       say LineDone;; say LineFig1;; say (LineFig2 (has_column "STAI_T" df));;
       say LineFig3;; say LineFig4)
        {| world := w3; console := (console s ++ new)%list |}.
Proof.
  intros w1 w2 w3 H1 H2 H3. unfold Controller.main.
  fold script_01 script_02 script_03.
  erewrite script_bind_finished; [|by apply run_ok].
  erewrite script_bind_finished; [|by apply run_ok].
  erewrite script_bind_finished; [|by apply run_ok].
  unfold moved_to. simpl. rewrite <- !app_assoc.
  eexists. split; [|reflexivity].
  repeat (apply Forall_app; split);
    try (by repeat constructor); by apply Forall_fmap, Forall_true.
Qed.

(** The five closing lines, printed in a row. *)
Lemma closing_lines_said (fig2 : bool) (s : Session) :
  (say LineDone;; say LineFig1;; say (LineFig2 fig2);; say LineFig3;; say LineFig4) s
  = (Finished tt,
     {| world := world s; console := (console s ++ closing_lines fig2)%list |}).
Proof.
  unfold say, mbind, Script_bind, closing_lines. simpl.
  by rewrite <- !app_assoc.
Qed.

End ControllerRuns.

(** X25. The controller stops at the first script that fails: it leaves
    through [sys.exit] naming that command, and the world is left as that
    command left it, so no later script is started, nothing is validated and
    no overlay is made. *)
Theorem controller_stops_at_first_failing_script (sh : Shell) (s : Session) :
  let w1 := (sh script_01 (world s)).2 in
  let w2 := (sh script_02 w1).2 in
  let w3 := (sh script_03 w2).2 in
  let c1 := (sh script_01 (world s)).1 in
  let c2 := (sh script_02 w1).1 in
  let c3 := (sh script_03 w2).1 in
  let ending := (Controller.main sh s).1 in
  let w' := world (Controller.main sh s).2 in
  (c1 <> 0 -> ending = Exited (FailedCommand script_01) /\ w' = w1)
  /\ (c1 = 0 -> c2 <> 0 -> ending = Exited (FailedCommand script_02) /\ w' = w2)
  /\ (c1 = 0 -> c2 = 0 -> c3 <> 0 ->
      ending = Exited (FailedCommand script_03) /\ w' = w3).
Proof.
  intros w1 w2 w3 c1 c2 c3 ending w'. subst ending w'.
  unfold Controller.main. fold script_01 script_02 script_03.
  split; [|split].
  - intros H1.
    erewrite script_bind_exited; [|by apply run_failed]. done.
  - intros H1 H2.
    erewrite script_bind_finished; [|by apply run_ok].
    erewrite script_bind_exited; [|by apply run_failed]. done.
  - intros H1 H2 H3.
    erewrite script_bind_finished; [|by apply run_ok].
    erewrite script_bind_finished; [|by apply run_ok].
    erewrite script_bind_exited; [|by apply run_failed]. done.
Qed.

Lemma controller_stops_at_first_failing_script_witness :
  let s := {| world := roi_world roi_without_asymmetry; console := [] |} in
  (Controller.main (shell_failing_at script_02) s).1 = Exited (FailedCommand script_02)
  /\ world (Controller.main (shell_failing_at script_02) s).2
     = roi_world roi_without_asymmetry.
Proof.
  intros s.
  destruct (controller_stops_at_first_failing_script (shell_failing_at script_02) s)
    as (_ & H & _).
  by apply H.
Defined.

(** X26. A validation that does not return ends the controller before the
    overlay fix: after three successful scripts, an exit of the validator is
    the exit of the controller, an exception of the validator is left
    uncaught, and in both cases the world is left as the validator left it;
    the mask and the figure are not touched. *)
Theorem failed_validation_ends_the_controller (sh : Shell) (s : Session) (w4 : World) :
  let w1 := (sh script_01 (world s)).2 in
  let w2 := (sh script_02 w1).2 in
  let w3 := (sh script_03 w2).2 in
  (sh script_01 (world s)).1 = 0 ->
  (sh script_02 w1).1 = 0 ->
  (sh script_03 w2).1 = 0 ->
  (forall m, RunAndQA.validate_roi_csv ROI_CSV w3 = (SystemExit m, w4) ->
     (Controller.main sh s).1 = Exited (StageExit m)
     /\ world (Controller.main sh s).2 = w4)
  /\ (forall e, RunAndQA.validate_roi_csv ROI_CSV w3 = (Raised e, w4) ->
     (Controller.main sh s).1 = Uncaught e
     /\ world (Controller.main sh s).2 = w4).
Proof.
  intros w1 w2 w3 H1 H2 H3.
  destruct (main_after_scripts sh s H1 H2 H3) as (new & _ & ->).
  subst w1 w2 w3.
  split; intros x Hrun.
  - erewrite script_bind_exited; [|by unfold stage; simpl; rewrite Hrun]. done.
  - erewrite script_bind_uncaught; [|by unfold stage; simpl; rewrite Hrun]. done.
Qed.

Lemma failed_validation_ends_the_controller_witness :
  let s := {| world := roi_world roi_missing_right; console := [] |} in
  (Controller.main (shell_all_ok) s).1
    = Exited (StageExit (MissingRequiredColumn "Amygdala_R"))
  /\ files (world (Controller.main (shell_all_ok) s).2) !! MASK_PATH = None.
Proof.
  intros s.
  destruct (failed_validation_ends_the_controller (shell_all_ok) s
              (RunAndQA.validate_roi_csv ROI_CSV (roi_world roi_missing_right)).2
              eq_refl eq_refl eq_refl) as [Hexit _].
  destruct (Hexit (MissingRequiredColumn "Amygdala_R")) as [-> ->];
    [vm_compute; reflexivity|].
  split; [done | vm_compute; reflexivity].
Defined.

(** X27. The closing lines do not depend on what the overlay fix did. After
    three successful scripts and a validation that returned a table, a fix
    that returns is followed by the five closing lines, figure 4 among them
    and figure 2 announced exactly when the table has a [STAI_T] column;
    this is so even when the fix was skipped for want of the neuroimaging
    libraries, in which case the controller itself has written neither the
    mask nor the figure. A fix that raises is left uncaught, and what the run
    added to the terminal is lines of work in progress only: no closing line
    is printed. *)
Theorem closing_lines_follow_any_returning_fix
    (sh : Shell) (s : Session) (df : DataFrame) (w4 : World) :
  let w1 := (sh script_01 (world s)).2 in
  let w2 := (sh script_02 w1).2 in
  let w3 := (sh script_03 w2).2 in
  (sh script_01 (world s)).1 = 0 ->
  (sh script_02 w1).1 = 0 ->
  (sh script_03 w2).1 = 0 ->
  RunAndQA.validate_roi_csv ROI_CSV w3 = (Returned df, w4) ->
  (forall w5, RunAndQA.fix_overlay_mask_and_render w4 = (Returned tt, w5) ->
     exists before,
       Controller.main sh s =
         (Finished tt,
          {| world := w5;
             console := (before ++ closing_lines (has_column "STAI_T" df))%list |}))
  /\ (HAVE_NILEARN w4 = false ->
      exists before,
        Controller.main sh s =
          (Finished tt,
           {| world := printed [MsgSkipOverlay] w4;
              console := (before ++ Said MsgSkipOverlay
                                 :: closing_lines (has_column "STAI_T" df))%list |}))
  /\ (forall e w5, RunAndQA.fix_overlay_mask_and_render w4 = (Raised e, w5) ->
      exists new,
        Controller.main sh s =
          (Uncaught e, {| world := w5; console := (console s ++ new)%list |})
        /\ Forall (fun l => progress_line l = true) new).
Proof.
  intros w1 w2 w3 H1 H2 H3 Hvalid.
  destruct (main_after_scripts sh s H1 H2 H3) as (new & Hnew & ->).
  subst w1 w2 w3.
  erewrite script_bind_finished;
    [|by unfold stage; simpl; rewrite Hvalid].
  split; [|split].
  - intros w5 Hfix.
    erewrite script_bind_finished;
      [|by unfold stage; simpl; rewrite Hfix].
    rewrite closing_lines_said. simpl. by eexists.
  - intros Hlib.
    assert (RunAndQA.fix_overlay_mask_and_render w4
            = (Returned tt, printed [MsgSkipOverlay] w4)) as Hfix.
    { unfold RunAndQA.fix_overlay_mask_and_render. run_m. by rewrite Hlib. }
    erewrite script_bind_finished;
      [|by unfold stage; simpl; rewrite Hfix].
    rewrite closing_lines_said. simpl.
    rewrite drop_app_length, <- (app_assoc _ [Said MsgSkipOverlay]). simpl.
    by eexists.
  - intros e w5 Hfix.
    erewrite script_bind_uncaught;
      [|by unfold stage; simpl; rewrite Hfix].
    unfold moved_to. simpl. rewrite <- !app_assoc.
    eexists. split; [reflexivity|].
    repeat (apply Forall_app; split); try done; by apply Forall_fmap, Forall_true.
Qed.

Lemma closing_lines_follow_any_returning_fix_witness :
  let s := {| world := roi_world roi_without_asymmetry; console := [] |} in
  let v := RunAndQA.validate_roi_csv ROI_CSV (roi_world roi_without_asymmetry) in
  exists before,
    Controller.main shell_all_ok s =
      (Finished tt,
       {| world := printed [MsgSkipOverlay] v.2;
          console := (before ++ Said MsgSkipOverlay :: closing_lines false)%list |}).
Proof.
  intros s v.
  set (df := match v.1 with Returned d => d | _ => [] end).
  assert (RunAndQA.validate_roi_csv ROI_CSV (roi_world roi_without_asymmetry)
          = (Returned df, v.2)) as Hv by (vm_compute; reflexivity).
  pose proof (closing_lines_follow_any_returning_fix shell_all_ok s df v.2
                eq_refl eq_refl eq_refl Hv) as (_ & H & _).
  exact (H eq_refl).
Defined.
